(** * A chat pipeline with trace propagation: gateway, classifier and queue worker

    Shallow embedding of the three services of the repository

      - [services/chat-service/app/main.py]  (module [ChatService]),
      - [services/nlp-service/app/main.py]   (module [NlpService]),
      - [services/worker/app/main.py]        (module [Worker]),

    and the properties of their handlers.

    The handlers are effectful Python: they log, open spans, talk to RabbitMQ
    through pika and to HTTP services through httpx, and raise exceptions.
    They are embedded in a writer-and-error monad [M]: a computation yields
    either a value or a raised exception, together with the list of external
    calls it issued, in order.  What the outside world answers (which AMQP
    call fails, what an HTTP endpoint returns, the process environment) is
    read from a [World]; what the third-party libraries compute (the
    OpenTelemetry propagator and tracer, the JSON codec) is a parameter of
    the development, the class [Runtime].  The function of the start-up
    code, [_configure_otlp_exporter], which is the same in the three files,
    is in the module [Bootstrap]; the instrumentation wiring at module
    level has no part in what the handlers do and is left out. *)

From Stdlib Require Import ZArith NArith String Ascii Strings.Byte List DecimalString.
From Stdlib Require Import PrimFloat FloatOps SpecFloat.
From stdpp Require Import base option list strings gmap fin_maps.

#[local] Set Warnings "-register-all".
Local Open Scope string_scope.
Local Open Scope list_scope.
Local Open Scope Z_scope.

(** ** Python values and exceptions *)

Module Py.

(** The exceptions the three services can raise or meet.  [HTTPStatusError]
    and [TransportError] are the two families of [httpx.HTTPError];
    [HTTPException] is FastAPI's; [AMQPError] stands for pika's exception
    family.  [JSONDecodeError] stands for the [ValueError]s of the JSON
    decoder.  [KeyboardInterrupt] is the one that is no [Exception]. *)
Inductive amqp_error := AMQPConnectionError | AMQPChannelError.

Inductive exn :=
| UnicodeDecodeError
| JSONDecodeError
| AttributeError
| TypeError
| ValueError
| OverflowError
| HTTPStatusError (status_code : Z)
| TransportError
| HTTPException (status_code : Z) (detail : string)
| AMQPError (e : amqp_error)
| KeyboardInterrupt.

(** [except httpx.HTTPError] *)
Definition is_HTTPError (e : exn) : bool :=
  match e with
  | HTTPStatusError _ | TransportError => true
  | _ => false
  end.

(** [except Exception] *)
Definition is_Exception (e : exn) : bool :=
  match e with
  | KeyboardInterrupt => false
  | _ => true
  end.

(** [except KeyboardInterrupt] *)
Definition is_KeyboardInterrupt (e : exn) : bool :=
  match e with
  | KeyboardInterrupt => true
  | _ => false
  end.

(** The outcome of an expression that may raise. *)
Inductive result (A : Type) :=
| Ok (a : A)
| Raise (e : exn).
Arguments Ok {A} a.
Arguments Raise {A} e.

#[global] Instance result_ret : MRet result := fun A a => Ok a.
#[global] Instance result_bind : MBind result := fun A B f r =>
  match r with
  | Ok a => f a
  | Raise e => Raise e
  end.

Definition of_option {A} (e : exn) (o : option A) : result A :=
  match o with
  | Some a => Ok a
  | None => Raise e
  end.

(** A decoded JSON document, as [json.loads] and [Response.json] build it.
    A [str] is kept as the [string] of its UTF-8 bytes, a [dict] with [str]
    keys as a finite map. *)
Inductive pyval :=
| PNone
| PBool (b : bool)
| PInt (z : Z)
| PFloat (f : float)
| PStr (s : string)
| PList (l : list pyval)
| PDict (d : gmap string pyval).

(** *** [bytes.decode]

    A byte is a continuation byte when it is in 80..BF. *)
Definition in_range (lo hi : N) (b : byte) : bool :=
  ((lo <=? Byte.to_N b) && (Byte.to_N b <=? hi))%N.

Definition is_cont (b : byte) : bool := in_range 0x80 0xBF b.

(** The length (1 to 4) of the well-formed UTF-8 sequence that starts the
    list, following Table 3-7 of the Unicode standard, or 0 when there is
    none. *)
Definition utf8_seq_len (l : list byte) : nat :=
  match l with
  | [] => 0%nat
  | b0 :: t =>
    if in_range 0x00 0x7F b0 then 1%nat
    else match t with
    | [] => 0%nat
    | b1 :: t1 =>
      if in_range 0xC2 0xDF b0 && is_cont b1 then 2%nat
      else match t1 with
      | [] => 0%nat
      | b2 :: t2 =>
        if (in_range 0xE0 0xE0 b0 && in_range 0xA0 0xBF b1
            || in_range 0xE1 0xEC b0 && is_cont b1
            || in_range 0xED 0xED b0 && in_range 0x80 0x9F b1
            || in_range 0xEE 0xEF b0 && is_cont b1) && is_cont b2 then 3%nat
        else match t2 with
        | [] => 0%nat
        | b3 :: _ =>
          if (in_range 0xF0 0xF0 b0 && in_range 0x90 0xBF b1
              || in_range 0xF1 0xF3 b0 && is_cont b1
              || in_range 0xF4 0xF4 b0 && in_range 0x80 0x8F b1)
             && is_cont b2 && is_cont b3 then 4%nat
          else 0%nat
        end
      end
    end
  end.

Inductive errors := strict | ignore.

(** [decode_from skip l]: decode [l] after dropping its first [skip] bytes,
    which belong to a character already emitted.  Under [strict] an
    ill-formed byte raises; under [ignore] it is dropped. *)
Fixpoint decode_from (mode : errors) (skip : nat) (l : list byte)
  : result (list byte) :=
  match l with
  | [] => Ok []
  | b :: t =>
    match skip with
    | S k => r ← decode_from mode k t; Ok (b :: r)
    | O =>
      match utf8_seq_len l with
      | O =>
        match mode with
        | strict => Raise UnicodeDecodeError
        | ignore => decode_from mode 0 t
        end
      | S k => r ← decode_from mode k t; Ok (b :: r)
      end
    end
  end.

(** [b.decode("utf-8", errors=mode)] *)
Definition bytes_decode (mode : errors) (b : list byte) : result string :=
  r ← decode_from mode 0 b; Ok (string_of_list_byte r).

(** [s.encode("utf-8")] *)
Definition str_encode (s : string) : list byte := list_byte_of_string s.

(** [len(s)] for a [str]: its number of code points. *)
Definition str_len (s : string) : Z :=
  Z.of_nat (length (filter (fun b => is_cont b = false) (list_byte_of_string s))).

End Py.

(** ** OpenTelemetry data *)

Module Otel.

Inductive SpanKind := INTERNAL | SERVER | CLIENT | PRODUCER | CONSUMER.

(** [opentelemetry.trace.SpanContext]: a 128-bit trace id, a 64-bit span id
    and the trace flags. *)
Record SpanContext := {
  trace_id : N;
  span_id : N;
  trace_flags : N;
  is_remote : bool
}.

(** [SpanContext.is_valid]: neither id is the all-zero one, and both fit
    their width. *)
Definition is_valid (sc : SpanContext) : bool :=
  ((0 <? trace_id sc) && (trace_id sc <=? 2 ^ 128 - 1)
   && (0 <? span_id sc) && (span_id sc <=? 2 ^ 64 - 1))%N.

End Otel.

Export Py Otel.

(** ** The libraries the services are written against

    [Ctx] is [opentelemetry.context.Context]; [get_span_context ctx] is
    [trace.get_current_span(ctx).get_span_context()]; [inject ctx carrier]
    is the carrier after [inject(carrier)] ran with [ctx] current;
    [extract carrier] is [extract(carrier)]; [start_span name kind parent]
    is the context in which the span opened by
    [tracer.start_as_current_span(name, context=parent, kind=kind)] is the
    current one.  [json_dumps], [json_loads] and [response_json] are
    [json.dumps], [json.loads] on a [str] and httpx's [Response.json] on the
    body bytes, [None] when they raise.  [int_of_str] is [int(s)] on a [str]
    and [str_of_value] is [str(v)] on a value that is not a [str]. *)
Class Runtime := {
  Ctx : Type;
  get_span_context : Ctx -> SpanContext;
  inject : Ctx -> gmap string string -> gmap string string;
  extract : gmap string string -> Ctx;
  start_span : string -> SpanKind -> Ctx -> Ctx;
  json_dumps : pyval -> string;
  json_loads : string -> option pyval;
  response_json : list byte -> option pyval;
  int_of_str : string -> option Z;
  str_of_value : pyval -> string
}.

(** ** External calls, the world, and the monad of handlers *)

Module Eff.

(** A key or a value of an AMQP header table as pika hands it over: a
    [str], a [bytes] or [bytearray], or any other value. *)
Inductive hval :=
| HStr (s : string)
| HBytes (b : list byte)
| HOther (v : pyval).

(** [pika.BasicProperties], with the fields the services set or read. *)
Record BasicProperties := {
  content_type : option string;
  delivery_mode : option Z;
  headers : option (list (hval * hval))
}.

(** The calls made on a pika connection or channel. *)
Inductive amqp_call :=
| BlockingConnection (host : string)
| channel
| queue_declare (queue : string) (durable : bool)
| basic_qos (prefetch_count : Z)
| basic_publish (exchange routing_key : string) (body : list byte)
    (properties : BasicProperties)
| basic_consume (queue : string)
| basic_ack (delivery_tag : Z)
| basic_nack (delivery_tag : Z) (requeue : bool)
| channel_close
| connection_close.

Inductive loglevel := INFO | EXCEPTION.

(** What a handler does to the outside, in order. *)
Inductive event :=
| Log (level : loglevel) (msg : string)
| SpanStart (name : string) (kind : SpanKind) (sc : SpanContext)
| SetAttribute (key : string) (value : pyval)
| SpanEnd (name : string)
| Amqp (c : amqp_call)
| HttpPost (base_url : string) (timeout : float) (path : string) (json : pyval)
| Yield (chunk : list byte)
| Sleep (delay : float).

(** The answer of an HTTP server to a POST: no answer at all (connection
    refused, timeout, ...), or a status code and a body. *)
Inductive http_outcome :=
| NoResponse
| Response (status_code : Z) (content : list byte).

(** The world a process runs in: its environment variables, the AMQP calls
    that fail, and what the HTTP servers answer. *)
Record World := {
  environ : gmap string string;
  amqp_fault : amqp_call -> option amqp_error;
  http_server : string -> string -> pyval -> http_outcome
}.

(** A handler's run: its outcome and the events it produced. *)
Definition M (A : Type) : Type := (result A * list event)%type.

Definition outcome {A} (m : M A) : result A := fst m.
Definition trace {A} (m : M A) : list event := snd m.

#[global] Instance M_ret : MRet M := fun A a => (Ok a, []).
#[global] Instance M_bind : MBind M := fun A B f m =>
  match m with
  | (Ok a, t) => let r := f a in (fst r, t ++ snd r)
  | (Raise e, t) => (Raise e, t)
  end.

Definition emit (e : event) : M unit := (Ok tt, [e]).
Definition raise {A} (e : exn) : M A := (Raise e, []).
Definition lift {A} (r : result A) : M A := (r, []).

(** [try: body / except E as exc: handler exc], where [catches] says which
    exceptions [E] matches. *)
Definition try_except {A} (body : M A) (catches : exn -> bool)
    (handler : exn -> M A) : M A :=
  match body with
  | (Raise e, t) =>
    if catches e then let r := handler e in (fst r, t ++ snd r)
    else (Raise e, t)
  | ok => ok
  end.

(** [try: body / finally: final]: [final] runs on both exits, and an
    exception it raises replaces the outcome of [body]. *)
Definition try_finally {A} (body : M A) (final : M unit) : M A :=
  match final with
  | (Ok _, tf) => (fst body, snd body ++ tf)
  | (Raise e, tf) => (Raise e, snd body ++ tf)
  end.

Definition log (level : loglevel) (msg : string) : M unit :=
  emit (Log level msg).

(** [os.getenv(key, default)] *)
Definition getenv (w : World) (key dflt : string) : string :=
  default dflt (environ w !! key).

(** A call on a pika connection or channel: it is issued, and raises when
    the world says so. *)
Definition amqp (w : World) (c : amqp_call) : M unit :=
  (match amqp_fault w c with
   | Some e => Raise (AMQPError e)
   | None => Ok tt
   end, [Amqp c]).

(** Kinds of events, for statements about traces. *)
Definition is_amqp (e : event) : bool :=
  match e with Amqp _ => true | _ => false end.

Definition is_http_post (e : event) : bool :=
  match e with HttpPost _ _ _ _ => true | _ => false end.

Definition is_ack (e : event) : bool :=
  match e with Amqp (basic_ack _) => true | _ => false end.

Definition is_nack (e : event) : bool :=
  match e with Amqp (basic_nack _ _) => true | _ => false end.

Definition count (p : event -> bool) (t : list event) : nat :=
  length (List.filter p t).

(** The delivery tags a trace settles, by an ack or by a nack, in order. *)
Definition settled (e : event) : option Z :=
  match e with
  | Amqp (basic_ack tag) | Amqp (basic_nack tag _) => Some tag
  | _ => None
  end.

Definition settlements (t : list event) : list Z := omap settled t.

(** The spans a trace opens and ends, in order. *)
Definition is_span_event (e : event) : bool :=
  match e with SpanStart _ _ _ | SpanEnd _ => true | _ => false end.

Definition span_events (t : list event) : list event :=
  List.filter is_span_event t.

(** The HTTP calls of a trace, in order. *)
Definition http_calls (t : list event) : list event :=
  List.filter is_http_post t.

(** [httpx.Response] *)
Record HttpxResponse := {
  status_code : Z;
  content : list byte
}.

(** [client.post(path, json=json)] on a client made with [base_url] and
    [timeout]; a transport-level failure raises [httpx.TransportError]. *)
Definition client_post (w : World) (base_url : string) (timeout : float)
    (path : string) (json : pyval) : M HttpxResponse :=
  emit (HttpPost base_url timeout path json);;
  match http_server w base_url path json with
  | NoResponse => raise TransportError
  | Response s c => mret {| status_code := s; content := c |}
  end.

(** [Response.is_success] *)
Definition is_success (r : HttpxResponse) : bool :=
  (200 <=? status_code r) && (status_code r <=? 299).

(** [response.raise_for_status()]: raises [httpx.HTTPStatusError] unless the
    status is 2xx. *)
Definition raise_for_status (r : HttpxResponse) : M unit :=
  if is_success r then mret tt else raise (HTTPStatusError (status_code r)).

Section with_runtime.
Context `{Runtime}.

(** [response.json()] *)
Definition resp_json (r : HttpxResponse) : M pyval :=
  lift (of_option JSONDecodeError (response_json (content r))).

(** [with tracer.start_as_current_span(name, context=parent, kind=kind)]:
    the body runs in the context of the new span, and the span is ended on
    both exits. *)
Definition with_span {A} (name : string) (kind : SpanKind) (parent : Ctx)
    (body : Ctx -> M A) : M A :=
  let ctx := start_span name kind parent in
  emit (SpanStart name kind (get_span_context ctx));;
  try_finally (body ctx) (emit (SpanEnd name)).

Definition set_attribute (key : string) (value : pyval) : M unit :=
  emit (SetAttribute key value).

(** [str(v)] *)
Definition py_str (v : pyval) : string :=
  match v with
  | PStr s => s
  | _ => str_of_value v
  end.

(** [int(f)] on a float: truncation towards zero. *)
Definition int_of_float (f : float) : result Z :=
  match Prim2SF f with
  | S754_zero _ => Ok 0
  | S754_infinity _ => Raise OverflowError
  | S754_nan => Raise ValueError
  | S754_finite s m e =>
    let a := if 0 <=? e then Z.pos m * 2 ^ e else Z.pos m / 2 ^ (- e) in
    Ok (if s then - a else a)
  end.

(** [int(v)] *)
Definition py_int (v : pyval) : result Z :=
  match v with
  | PInt z => Ok z
  | PBool b => Ok (if b then 1 else 0)
  | PFloat f => int_of_float f
  | PStr s => of_option ValueError (int_of_str s)
  | PNone | PList _ | PDict _ => Raise TypeError
  end.

(** [v.get(key, default)]: only a [dict] has the method. *)
Definition py_get (v : pyval) (key : string) (dflt : pyval) : result pyval :=
  match v with
  | PDict d => Ok (default dflt (d !! key))
  | _ => Raise AttributeError
  end.

(** [len(v)] *)
Definition py_len (v : pyval) : result Z :=
  match v with
  | PStr s => Ok (str_len s)
  | PList l => Ok (Z.of_nat (length l))
  | PDict d => Ok (Z.of_nat (size d))
  | PNone | PBool _ | PInt _ | PFloat _ => Raise TypeError
  end.

End with_runtime.

End Eff.

Export Eff.

(** ** services/chat-service/app/main.py *)

Module ChatService.
Section defs.
Context `{Runtime}.

(** [class ChatRequest(BaseModel)] *)
Record ChatRequest := { message : string }.

(** A [Dict[str, str]] seen as a header table. *)
Definition dict_items (d : gmap string string) : list (hval * hval) :=
  (fun kv => (HStr (fst kv), HStr (snd kv))) <$> map_to_list d.

(** [d or {}]: an empty [dict] is false. *)
Definition or_empty (d : gmap string string) : gmap string string :=
  if decide (d = ∅) then ∅ else d.

Definition _publish_to_rabbitmq_sync (w : World) (queue_name : string)
    (payload : pyval) (headers : gmap string string) : M unit :=
  amqp w (BlockingConnection (getenv w "RABBITMQ_HOST" "localhost"));;
  try_finally
    (amqp w channel;;
     amqp w (queue_declare queue_name true);;
     let body := str_encode (json_dumps payload) in
     let properties :=
       {| content_type := Some "application/json";
          delivery_mode := Some 2;
          Eff.headers := Some (dict_items (or_empty headers)) |} in
     amqp w (basic_publish "" queue_name body properties);;
     amqp w channel_close)
    (amqp w connection_close).

(** [ctx] is the context that is current when the coroutine is called; the
    thread the blocking publish is handed to is awaited. *)
Definition publish_to_rabbitmq (w : World) (ctx : Ctx) (queue_name : string)
    (payload : pyval) : M unit :=
  let carrier := inject ctx ∅ in
  _publish_to_rabbitmq_sync w queue_name payload carrier.

(** The calls a publish makes when none of them fails. *)
Definition publish_calls (w : World) (ctx : Ctx) (queue_name : string)
    (payload : pyval) : list amqp_call :=
  [ BlockingConnection (getenv w "RABBITMQ_HOST" "localhost");
    channel;
    queue_declare queue_name true;
    basic_publish "" queue_name (str_encode (json_dumps payload))
      {| content_type := Some "application/json";
         delivery_mode := Some 2;
         Eff.headers := Some (dict_items (inject ctx ∅)) |};
    channel_close;
    connection_close ].

Definition healthz : M pyval :=
  mret (PDict {[ "status" := PStr "ok" ]}).

(** The [try] block of [chat_endpoint]: the call of [/classify]. *)
Definition classify_call (w : World) (nlp_url : string) (req : ChatRequest)
  : M pyval :=
  response ← client_post w nlp_url 5%float "/classify"
               (PDict {[ "text" := PStr (message req) ]});
  raise_for_status response;;
  resp_json response.

(** The body of [with tracer.start_as_current_span("call_nlp_service")]. *)
Definition call_nlp_service (w : World) (nlp_url : string) (req : ChatRequest)
  : M pyval :=
  try_except
    (classify_call w nlp_url req)
    is_HTTPError
    (fun exc =>
       log EXCEPTION "NLP service call failed: %s";;
       raise (HTTPException 502 "NLP service unavailable")).

(** The PRODUCER span of [chat_endpoint] with the publish in it. *)
Definition publish_step (w : World) (ctx : Ctx) (rabbitmq_queue : string)
    (req : ChatRequest) : M unit :=
  with_span "publish_to_rabbitmq" PRODUCER ctx (fun ctx' =>
    set_attribute "messaging.destination" (PStr rabbitmq_queue);;
    set_attribute "chat.message_length" (PInt (str_len (message req)));;
    publish_to_rabbitmq w ctx' rabbitmq_queue
      (PDict {[ "message" := PStr (message req) ]})).

Definition chat_endpoint (w : World) (ctx : Ctx) (req : ChatRequest) : M pyval :=
  log INFO "Received chat request";;
  let nlp_url := getenv w "NLP_SERVICE_URL" "http://localhost:8001" in
  let rabbitmq_queue := getenv w "RABBITMQ_QUEUE" "chat-jobs" in
  publish_step w ctx rabbitmq_queue req;;
  classification ←
    with_span "call_nlp_service" INTERNAL ctx (fun _ =>
      call_nlp_service w nlp_url req);
  mret (PDict {[ "ok" := PBool true; "classification" := classification ]}).

(** *** The chunk stream

    The async generator that [stream_generator()] makes is [Created], then
    [Suspended] at the [yield] of an iteration of its loop, then
    [Finished]. *)
Inductive gen_state :=
| Created
| Suspended (index : Z)
| Finished.

Definition newline : string := String "010"%char EmptyString.

(** [f"chunk-{index}\n".encode("utf-8")] *)
Definition chunk_of (index : Z) : list byte :=
  str_encode ("chunk-" +:+ NilZero.string_of_int (Z.to_int index) +:+ newline).

(** The loop of the generator from the iteration [index] of [range(5)] on,
    up to its next [yield] or its end. *)
Definition run_from (index : Z)
  : list event * option (list byte) * gen_state :=
  if index <? 5 then
    ([Log INFO "stream_chunk_emitted index=%d"], Some (chunk_of index),
     Suspended index)
  else ([], None, Finished).

(** One step of the generator, [await gen.__anext__()]: the events of the
    step, the chunk yielded ([None] for [StopAsyncIteration]), and the
    generator afterwards. *)
Definition stream_generator (st : gen_state)
  : list event * option (list byte) * gen_state :=
  match st with
  | Created => run_from 0
  | Suspended index =>
    let '(ev, r, st') := run_from (index + 1) in
    (Sleep 0.5%float :: ev, r, st')
  | Finished => ([], None, Finished)
  end.

(** [starlette.responses.StreamingResponse] *)
Record StreamingResponse := {
  body_iterator : gen_state;
  media_type : string
}.

Definition chat_stream : M StreamingResponse :=
  log INFO "Starting chat-stream";;
  mret {| body_iterator := Created; media_type := "text/plain" |}.

(** The server sending the body: [async for chunk in body_iterator], each
    chunk going out as it is yielded.  [None] when [fuel] steps do not
    exhaust the generator. *)
Fixpoint send_body (fuel : nat) (st : gen_state) : option (list event) :=
  match fuel with
  | O => None
  | S n =>
    let '(ev, r, st') := stream_generator st in
    match r with
    | None => Some ev
    | Some c => rest ← send_body n st'; Some (ev ++ Yield c :: rest)
    end
  end.

End defs.
End ChatService.

(** ** services/nlp-service/app/main.py *)

Module NlpService.
Section defs.
Context `{Runtime}.

(** [class ClassifyRequest(BaseModel)] *)
Record ClassifyRequest := { text : string }.

Definition healthz : M pyval :=
  mret (PDict {[ "status" := PStr "ok" ]}).

(** The [try] block of [classify_endpoint]: the call of [/analyze]. *)
Definition analyze_call (w : World) (dotnet_url : string) (req : ClassifyRequest)
  : M pyval :=
  resp ← client_post w dotnet_url 5%float "/analyze"
           (PDict {[ "text" := PStr (text req) ]});
  raise_for_status resp;;
  resp_json resp.

(** The [try] statement of [classify_endpoint]. *)
Definition call_analyze (w : World) (dotnet_url : string) (req : ClassifyRequest)
  : M pyval :=
  try_except
    (analyze_call w dotnet_url req)
    is_HTTPError
    (fun exc =>
       log EXCEPTION ".NET analyze failed: %s";;
       raise (HTTPException 502 "Analyze service unavailable")).

(** The last three statements of [classify_endpoint]. *)
Definition classify (analysis : pyval) : result pyval :=
  got ← py_get analysis "length" (PInt 0);
  length ← py_int got;
  let classification := if length <? 20 then "short" else "long" in
  Ok (PDict {[ "classification" := PStr classification;
               "analysis" := analysis ]}).

Definition classify_endpoint (w : World) (req : ClassifyRequest) : M pyval :=
  log INFO "Classify request received";;
  let dotnet_url := getenv w "DOTNET_SERVICE_URL" "http://localhost:8080" in
  analysis ← call_analyze w dotnet_url req;
  lift (classify analysis).

End defs.
End NlpService.

(** ** services/worker/app/main.py *)

Module Worker.
Section defs.
Context `{Runtime}.

(** The [for k, v in headers.items()] loop, [normalized] being the
    dictionary built so far. *)
Fixpoint normalize_items (items : list (hval * hval))
    (normalized : gmap string string) : result (gmap string string) :=
  match items with
  | [] => Ok normalized
  | (k, v) :: rest =>
    key ← match k with
          | HBytes b => bytes_decode strict b
          | HStr s => Ok s
          | HOther x => Ok (py_str x)
          end;
    match v with
    | HBytes b =>
      val ← bytes_decode ignore b;
      normalize_items rest (<[key := val]> normalized)
    | HStr s => normalize_items rest (<[key := s]> normalized)
    | HOther x => normalize_items rest (<[key := py_str x]> normalized)
    end
  end.

Definition _normalize_headers (headers : option (list (hval * hval)))
  : result (gmap string string) :=
  match headers with
  | None | Some [] => Ok ∅
  | Some items => normalize_items items ∅
  end.

(** [method]: the [Basic.Deliver] frame of a delivery. *)
Record Deliver := { delivery_tag : Z }.

(** The [try] block of [on_message] with its handler. *)
Definition process (w : World) (dotnet_url : string) (method : Deliver)
    (body : list byte) : M unit :=
  try_except
    (decoded ← lift (bytes_decode strict body);
     payload ← lift (of_option JSONDecodeError (json_loads decoded));
     message ← lift (py_get payload "message" (PStr ""));
     _ ← lift (py_len message);
     log INFO "Processing message length=%d";;
     resp ← client_post w dotnet_url 5%float "/analyze"
              (PDict {[ "text" := message ]});
     raise_for_status resp;;
     analysis ← resp_json resp;
     log INFO "Analyze result: %s";;
     amqp w (basic_ack (delivery_tag method)))
    is_Exception
    (fun exc =>
       log EXCEPTION "Processing failed: %s";;
       amqp w (basic_nack (delivery_tag method) false)).

(** The callback [main] registers; [queue_name] and [dotnet_url] are the
    variables of [main] it closes over. *)
Definition on_message (w : World) (queue_name dotnet_url : string)
    (method : Deliver) (properties : BasicProperties) (body : list byte)
  : M unit :=
  headers ← lift (_normalize_headers (Eff.headers properties));
  let context := extract headers in
  with_span "rabbitmq.process" CONSUMER context (fun _ =>
    set_attribute "messaging.system" (PStr "rabbitmq");;
    set_attribute "messaging.destination" (PStr queue_name);;
    set_attribute "messaging.operation" (PStr "process");;
    process w dotnet_url method body).

(** A delivery: the arguments pika calls the callback with. *)
Definition delivery : Type := Deliver * BasicProperties * list byte.

(** [channel.start_consuming()]: pika calls [on_message] on each delivery
    in turn, and an exception of the callback leaves the loop.  The loop
    runs until the process is interrupted; here the interrupt comes once
    the given deliveries are through. *)
Fixpoint start_consuming (w : World) (queue_name dotnet_url : string)
    (deliveries : list delivery) : M unit :=
  match deliveries with
  | [] => raise KeyboardInterrupt
  | (method, properties, body) :: rest =>
    on_message w queue_name dotnet_url method properties body;;
    start_consuming w queue_name dotnet_url rest
  end.

Definition main (w : World) (deliveries : list delivery) : M unit :=
  let rabbit_host := getenv w "RABBITMQ_HOST" "localhost" in
  let queue_name := getenv w "RABBITMQ_QUEUE" "chat-jobs" in
  let dotnet_url := getenv w "DOTNET_SERVICE_URL" "http://localhost:8080" in
  log INFO "Worker connecting to RabbitMQ host=%s queue=%s";;
  amqp w (BlockingConnection rabbit_host);;
  amqp w channel;;
  amqp w (queue_declare queue_name true);;
  amqp w (basic_qos 10);;
  amqp w (basic_consume queue_name);;
  try_finally
    (try_except
       (log INFO "Worker started consuming";;
        start_consuming w queue_name dotnet_url deliveries)
       is_KeyboardInterrupt
       (fun _ => log INFO "Worker interrupted, closing connection..."))
    (amqp w channel_close;;
     amqp w connection_close).

(** *** Parts of the functions above, for statements about them *)

(** Line 47, the key under which an entry is stored. *)
Definition normalize_key (k : hval) : result string :=
  match k with
  | HBytes b => bytes_decode strict b
  | HStr s => Ok s
  | HOther x => Ok (py_str x)
  end.

(** Lines 48 to 51, the value that is stored. *)
Definition normalize_value (v : hval) : result string :=
  match v with
  | HBytes b => bytes_decode ignore b
  | HStr s => Ok s
  | HOther x => Ok (py_str x)
  end.

(** A [str] that is the text of well-formed UTF-8 bytes. *)
Definition is_text (s : string) : Prop :=
  bytes_decode strict (str_encode s) = Ok s.

(** The forms in which a header table can hold the text [s]: as a [str],
    or as the [bytes] of its UTF-8 encoding. *)
Inductive holds (s : string) : hval -> Prop :=
| holds_str : holds s (HStr s)
| holds_bytes : is_text s -> holds s (HBytes (str_encode s)).

(** Lines 80 to 82 of [on_message]: the message of a body, up to the
    [len] that the log line takes of it. *)
Definition message_of (body : list byte) : result pyval :=
  decoded ← bytes_decode strict body;
  payload ← of_option JSONDecodeError (json_loads decoded);
  message ← py_get payload "message" (PStr "");
  _ ← py_len message;
  Ok message.

(** Lines 85 to 88 of [on_message]: the call of [/analyze]. *)
Definition analyze (w : World) (dotnet_url : string) (message : pyval)
  : M pyval :=
  resp ← client_post w dotnet_url 5%float "/analyze"
           (PDict {[ "text" := message ]});
  raise_for_status resp;;
  resp_json resp.

(** The handler of the [try] statement after the events [t] of a block
    that raised: the rejection of the delivery. *)
Definition rejected (w : World) (method : Deliver) (t : list event) : M unit :=
  (match amqp_fault w (basic_nack (delivery_tag method) false) with
   | Some e => Raise (AMQPError e)
   | None => Ok tt
   end,
   t ++ [Log EXCEPTION "Processing failed: %s";
         Amqp (basic_nack (delivery_tag method) false)]).

(** A delivery whose headers normalize. *)
Definition normalizes (d : delivery) : Prop :=
  exists carrier, _normalize_headers (Eff.headers (snd (fst d))) = Ok carrier.

(** The calls of [main] before it starts consuming. *)
Definition setup_calls (w : World) : list amqp_call :=
  [ BlockingConnection (getenv w "RABBITMQ_HOST" "localhost");
    channel;
    queue_declare (getenv w "RABBITMQ_QUEUE" "chat-jobs") true;
    basic_qos 10;
    basic_consume (getenv w "RABBITMQ_QUEUE" "chat-jobs") ].

End defs.
End Worker.

(** ** The start-up code of the three modules *)

Module Bootstrap.

(** The tracer provider as [_configure_otlp_exporter] uses it: whether it
    has the method [add_span_processor], and the endpoints of the
    exporters whose span processors it holds. *)
Record TracerProvider := {
  has_add_span_processor : bool;
  span_processors : list string
}.

(** What the OTLP libraries do at start-up: the exception, if any, that
    making an exporter for an endpoint raises, and the one that adding its
    span processor raises. *)
Record OtlpLibrary := {
  exporter_fault : string -> option exn;
  processor_fault : string -> option exn
}.

Definition add_span_processor (lib : OtlpLibrary) (provider : TracerProvider)
    (endpoint : string) : result TracerProvider :=
  match processor_fault lib endpoint with
  | Some e => Raise e
  | None =>
    Ok {| has_add_span_processor := has_add_span_processor provider;
          span_processors := span_processors provider ++ [endpoint] |}
  end.

(** The same function in the three files.  [provider] is what
    [trace.get_tracer_provider()] returns; the result is the provider
    after the call. *)
Definition _configure_otlp_exporter (w : World) (lib : OtlpLibrary)
    (provider : TracerProvider) : M TracerProvider :=
  try_except
    (let endpoint := getenv w "OTEL_EXPORTER_OTLP_TRACES_ENDPOINT"
                       "http://apm-server:4318/v1/traces" in
     lift (match exporter_fault lib endpoint with
           | Some e => Raise e
           | None => Ok tt
           end);;
     provider' ←
       (if has_add_span_processor provider
        then lift (add_span_processor lib provider endpoint)
        else mret provider);
     log INFO "OTLP exporter configured endpoint=%s";;
     mret provider')
    is_Exception
    (fun e =>
       log EXCEPTION "Failed to configure OTLP exporter: %s";;
       mret provider).

End Bootstrap.

(** ** The web framework around a handler *)

Module FastAPI.

(** What the client of a route gets: the status and the body.  A handler's
    return value is sent with 200, an [HTTPException] with its status and
    its detail, any other exception as a plain 500. *)
Definition respond (r : result pyval) : Z * pyval :=
  match r with
  | Ok v => (200, v)
  | Raise (HTTPException s d) => (s, PDict {[ "detail" := PStr d ]})
  | Raise _ => (500, PStr "Internal Server Error")
  end.

End FastAPI.

Export FastAPI.

(** ** What the services rely on from OpenTelemetry *)

Section contracts.
Context `{Runtime}.

(** A valid span context that is injected into an empty carrier is found
    again by [extract]. *)
Definition propagator_round_trips : Prop :=
  forall ctx : Ctx,
    is_valid (get_span_context ctx) = true ->
    is_valid (get_span_context (extract (inject ctx ∅))) = true /\
    trace_id (get_span_context (extract (inject ctx ∅)))
      = trace_id (get_span_context ctx).

(** A span started under a valid parent belongs to the parent's trace. *)
Definition child_span_joins_trace : Prop :=
  forall name kind (parent : Ctx),
    is_valid (get_span_context parent) = true ->
    trace_id (get_span_context (start_span name kind parent))
      = trace_id (get_span_context parent).

End contracts.

(** ** A reference runtime

    An instance of [Runtime] to run the services on: the W3C [traceparent]
    propagator, a tracer with a deterministic id generator, and a JSON
    codec reduced to one document, which every body decodes to. *)

Module Reference.

Definition hex_digits : list ascii :=
  list_ascii_of_string "0123456789abcdef".

Definition hex_digit (d : N) : ascii :=
  nth (N.to_nat d) hex_digits "0"%char.

Definition of_hex_digit (c : ascii) : option N :=
  N.of_nat <$> (fst <$> list_find (fun x => x = c) hex_digits).

(** [format(n, "0{width}x")] for [n] below [16 ^ width]. *)
Fixpoint to_hex (width : nat) (n : N) : string :=
  match width with
  | O => ""
  | S w => String (hex_digit ((n / 16 ^ N.of_nat w) mod 16)) (to_hex w n)
  end.

(** Read exactly [width] hexadecimal digits. *)
Fixpoint take_hex (width : nat) (acc : N) (s : string) : option (N * string) :=
  match width with
  | O => Some (acc, s)
  | S w =>
    match s with
    | String c s' => d ← of_hex_digit c; take_hex w (acc * 16 + d)%N s'
    | EmptyString => None
    end
  end.

Definition take_dash (s : string) : option string :=
  match s with
  | String "-"%char s' => Some s'
  | _ => None
  end.

Definition traceparent (sc : SpanContext) : string :=
  "00-" +:+ to_hex 32 (trace_id sc) +:+ "-" +:+ to_hex 16 (span_id sc)
        +:+ "-" +:+ to_hex 2 (trace_flags sc).

Definition parse_traceparent (s : string) : option SpanContext :=
  '(version, s) ← take_hex 2 0 s;
  s ← take_dash s;
  '(tid, s) ← take_hex 32 0 s;
  s ← take_dash s;
  '(sid, s) ← take_hex 16 0 s;
  s ← take_dash s;
  '(flags, s) ← take_hex 2 0 s;
  let sc := {| trace_id := tid; span_id := sid; trace_flags := flags;
               is_remote := true |} in
  if decide (s = "" /\ version = 0%N /\ is_valid sc = true) then Some sc
  else None.

Definition INVALID_SPAN_CONTEXT : SpanContext :=
  {| trace_id := 0; span_id := 0; trace_flags := 0; is_remote := false |}.

(** A context holds at most a current span. *)
Definition ref_span_context (ctx : option SpanContext) : SpanContext :=
  default INVALID_SPAN_CONTEXT ctx.

Definition ref_inject (ctx : option SpanContext) (carrier : gmap string string)
  : gmap string string :=
  if is_valid (ref_span_context ctx)
  then <[ "traceparent" := traceparent (ref_span_context ctx) ]> carrier
  else carrier.

Definition ref_extract (carrier : gmap string string) : option SpanContext :=
  carrier !! "traceparent" ≫= parse_traceparent.

(** The new span joins the trace of a valid parent and starts trace 1
    otherwise; the ids come from the parent's instead of a random source. *)
Definition ref_start_span (name : string) (kind : SpanKind)
    (parent : option SpanContext) : option SpanContext :=
  let p := ref_span_context parent in
  Some {| trace_id := if is_valid p then trace_id p else 1%N;
          span_id := N.succ (span_id p mod (2 ^ 64 - 1));
          trace_flags := 1;
          is_remote := false |}.

(** A sign and decimal digits. *)
Definition ref_int_of_str (s : string) : option Z :=
  Z.of_int <$> NilZero.int_of_string s.

Definition runtime (doc : option pyval) : Runtime := {|
  Ctx := option SpanContext;
  get_span_context := ref_span_context;
  inject := ref_inject;
  extract := ref_extract;
  start_span := ref_start_span;
  json_dumps := fun _ => "{}";
  json_loads := fun _ => doc;
  response_json := fun _ => doc;
  int_of_str := ref_int_of_str;
  str_of_value := fun _ => "None"
|}.

(** A world with no environment variable set, no AMQP fault, and HTTP
    servers that all give the same answer. *)
Definition world (answer : http_outcome) : World := {|
  environ := ∅;
  amqp_fault := fun _ => None;
  http_server := fun _ _ _ => answer
|}.

(** The same world with a RabbitMQ host that cannot be reached. *)
Definition world_without_broker (answer : http_outcome) : World := {|
  environ := ∅;
  amqp_fault := fun c =>
    match c with
    | BlockingConnection _ => Some AMQPConnectionError
    | _ => None
    end;
  http_server := fun _ _ _ => answer
|}.

(** A context whose current span has the ids of the W3C example. *)
Definition sample_context : option SpanContext :=
  Some {| trace_id := 0x4bf92f3577b34da6a3ce929d0e0e4736;
          span_id := 0x00f067aa0ba902b7;
          trace_flags := 1;
          is_remote := false |}.

Definition hello : ChatService.ChatRequest :=
  {| ChatService.message := "hello" |}.

(** What a healthy classification service answers to [hello]. *)
Definition short_hello : pyval :=
  PDict {[ "classification" := PStr "short";
           "analysis" := PDict {[ "length" := PInt 5 ]} ]}.

(** A world in which the AMQP calls that [failing] selects raise a channel
    error. *)
Definition world_failing (failing : amqp_call -> bool)
    (answer : http_outcome) : World := {|
  environ := ∅;
  amqp_fault := fun c => if failing c then Some AMQPChannelError else None;
  http_server := fun _ _ _ => answer
|}.

(** What a healthy analyzer answers to [hello]. *)
Definition analysis_hello : pyval := PDict {[ "length" := PInt 5 ]}.

(** The two hops of a chat request in one world: the analyzer answers
    [/analyze] with an empty body and the classification service answers
    [/classify] with a body of one byte. *)
Definition pipeline_world : World := {|
  environ := ∅;
  amqp_fault := fun _ => None;
  http_server := fun _ path _ =>
    if String.eqb path "/analyze" then Response 200 [] else Response 200 [x7b]
|}.

(** The reference runtime with a codec that reads the analyzer's body as
    [analysis_hello] and the classifier's as [short_hello]. *)
Definition pipeline_runtime : Runtime := {|
  Ctx := option SpanContext;
  get_span_context := ref_span_context;
  inject := ref_inject;
  extract := ref_extract;
  start_span := ref_start_span;
  json_dumps := fun _ => "{}";
  json_loads := fun _ => None;
  response_json := fun c =>
    match c with
    | [] => Some analysis_hello
    | _ => Some short_hello
    end;
  int_of_str := ref_int_of_str;
  str_of_value := fun _ => "None"
|}.

End Reference.

(** * Properties *)

(** ** The monad *)

Section monad_facts.

Lemma bind_ok {A B} (m : M A) (f : A -> M B) a :
  outcome m = Ok a -> m ≫= f = (outcome (f a), trace m ++ trace (f a)).
Proof. destruct m as [[]]; simpl; intros [= ->]; reflexivity. Qed.

Lemma bind_raise {A B} (m : M A) (f : A -> M B) e :
  outcome m = Raise e -> m ≫= f = (Raise e, trace m).
Proof. destruct m as [[]]; simpl; intros [= ->]; reflexivity. Qed.

End monad_facts.

(** Case analysis on the AMQP calls of the goal that the world may fail. *)
Ltac amqp_cases w :=
  repeat match goal with
  | |- context [amqp_fault w ?c] =>
    let E := fresh "E" in destruct (amqp_fault w c) eqn:E; simpl
  end.

(** ** The gateway: publishing *)

Section publisher.
Context `{Runtime}.
Import ChatService.

Lemma or_empty_id (d : gmap string string) : or_empty d = d.
Proof. unfold or_empty. by case_decide. Qed.

(** Whatever fails, a publish issues no call besides those of [publish_calls]. *)
Lemma publish_events w ctx queue_name payload ev :
  ev ∈ trace (publish_to_rabbitmq w ctx queue_name payload) ->
  ev ∈ Amqp <$> publish_calls w ctx queue_name payload.
Proof.
  unfold publish_to_rabbitmq, _publish_to_rabbitmq_sync, publish_calls,
    amqp, try_finally.
  rewrite or_empty_id. simpl.
  amqp_cases w; rewrite ?elem_of_cons, ?elem_of_nil; tauto.
Qed.

(** A publish that returns has issued them all, in order. *)
Lemma publish_returns w ctx queue_name payload :
  outcome (publish_to_rabbitmq w ctx queue_name payload) = Ok tt ->
  trace (publish_to_rabbitmq w ctx queue_name payload)
    = Amqp <$> publish_calls w ctx queue_name payload.
Proof.
  unfold publish_to_rabbitmq, _publish_to_rabbitmq_sync, publish_calls,
    amqp, try_finally.
  rewrite or_empty_id. simpl.
  amqp_cases w; done.
Qed.

Lemma publish_no_fault w ctx queue_name payload :
  (forall c, amqp_fault w c = None) ->
  outcome (publish_to_rabbitmq w ctx queue_name payload) = Ok tt.
Proof.
  intros Hw.
  unfold publish_to_rabbitmq, _publish_to_rabbitmq_sync, amqp, try_finally.
  by rewrite !Hw.
Qed.

(** The queue is declared once there is a channel, and the message is
    published once the queue is declared. *)
Lemma publish_declares w ctx queue_name payload :
  amqp_fault w (BlockingConnection (getenv w "RABBITMQ_HOST" "localhost")) = None ->
  amqp_fault w channel = None ->
  Amqp (queue_declare queue_name true)
    ∈ trace (publish_to_rabbitmq w ctx queue_name payload) /\
  (amqp_fault w (queue_declare queue_name true) = None ->
   Amqp (basic_publish "" queue_name (str_encode (json_dumps payload))
           {| content_type := Some "application/json";
              delivery_mode := Some 2;
              Eff.headers := Some (dict_items (inject ctx ∅)) |})
     ∈ trace (publish_to_rabbitmq w ctx queue_name payload)).
Proof.
  intros Hconn Hchan.
  unfold publish_to_rabbitmq, _publish_to_rabbitmq_sync, amqp, try_finally.
  rewrite or_empty_id, Hconn, Hchan. simpl. split.
  - amqp_cases w; rewrite !elem_of_cons; tauto.
  - intros ->. simpl. amqp_cases w; rewrite !elem_of_cons; tauto.
Qed.

(** A publish raises nothing but pika's errors. *)
Lemma publish_raises w ctx queue_name payload e :
  outcome (publish_to_rabbitmq w ctx queue_name payload) = Raise e ->
  exists a, e = AMQPError a.
Proof.
  unfold publish_to_rabbitmq, _publish_to_rabbitmq_sync, amqp, try_finally.
  simpl. amqp_cases w; intros [= <-]; eauto.
Qed.

Lemma publish_trace_amqp w ctx queue_name payload :
  Forall (fun ev => is_amqp ev = true)
    (trace (publish_to_rabbitmq w ctx queue_name payload)).
Proof.
  apply Forall_forall. intros ev Hev%publish_events.
  apply list_elem_of_fmap in Hev as (c & -> & _). reflexivity.
Qed.

(** The PRODUCER span adds its own events around those of the publish and
    passes the outcome on. *)
Lemma publish_step_run w ctx q req :
  publish_step w ctx q req =
    let pub := publish_to_rabbitmq w
                 (start_span "publish_to_rabbitmq" PRODUCER ctx) q
                 (PDict {[ "message" := PStr (message req) ]}) in
    (outcome pub,
     [SpanStart "publish_to_rabbitmq" PRODUCER
        (get_span_context (start_span "publish_to_rabbitmq" PRODUCER ctx));
      SetAttribute "messaging.destination" (PStr q);
      SetAttribute "chat.message_length" (PInt (str_len (message req)))]
     ++ trace pub ++ [SpanEnd "publish_to_rabbitmq"]).
Proof.
  unfold publish_step, with_span, set_attribute, emit, try_finally. simpl.
  destruct (publish_to_rabbitmq _ _ _ _) as [r t]. reflexivity.
Qed.

(** The call of [/classify], by what the server answers. *)
Lemma classify_call_run w url req :
  classify_call w url req =
    let post := HttpPost url 5%float "/classify"
                  (PDict {[ "text" := PStr (message req) ]}) in
    match http_server w url "/classify"
            (PDict {[ "text" := PStr (message req) ]}) with
    | NoResponse => (Raise TransportError, [post])
    | Response s c =>
      if (200 <=? s) && (s <=? 299)
      then (of_option JSONDecodeError (response_json c), [post])
      else (Raise (HTTPStatusError s), [post])
    end.
Proof.
  unfold classify_call, client_post, raise_for_status, resp_json, is_success.
  simpl. destruct (http_server _ _ _ _) as [|s c]; simpl; [done|].
  destruct ((200 <=? s) && (s <=? 299)); simpl; [|done].
  by destruct (response_json c).
Qed.

(** The classification hop with its handler. *)
Lemma call_nlp_service_run w url req :
  call_nlp_service w url req =
    let post := HttpPost url 5%float "/classify"
                  (PDict {[ "text" := PStr (message req) ]}) in
    let unavailable : M pyval :=
      (Raise (HTTPException 502 "NLP service unavailable"),
       [post; Log EXCEPTION "NLP service call failed: %s"]) in
    match http_server w url "/classify"
            (PDict {[ "text" := PStr (message req) ]}) with
    | NoResponse => unavailable
    | Response s c =>
      if (200 <=? s) && (s <=? 299)
      then (of_option JSONDecodeError (response_json c), [post])
      else unavailable
    end.
Proof.
  unfold call_nlp_service. rewrite classify_call_run. cbv zeta.
  destruct (http_server _ _ _ _) as [|s c]; simpl; [done|].
  destruct ((200 <=? s) && (s <=? 299)); simpl; [|done].
  by destruct (response_json c).
Qed.

(** [chat_endpoint] is its two steps in sequence: the second one runs only
    when the first has returned. *)
Lemma chat_endpoint_run w ctx req :
  chat_endpoint w ctx req =
    let pub := publish_step w ctx (getenv w "RABBITMQ_QUEUE" "chat-jobs") req in
    let nlp := call_nlp_service w
                 (getenv w "NLP_SERVICE_URL" "http://localhost:8001") req in
    let start := SpanStart "call_nlp_service" INTERNAL
                   (get_span_context (start_span "call_nlp_service" INTERNAL ctx)) in
    match outcome pub with
    | Raise e => (Raise e, Log INFO "Received chat request" :: trace pub)
    | Ok _ =>
      (match outcome nlp with
       | Ok classification =>
         Ok (PDict {[ "ok" := PBool true; "classification" := classification ]})
       | Raise e => Raise e
       end,
       Log INFO "Received chat request" :: trace pub
         ++ start :: trace nlp ++ [SpanEnd "call_nlp_service"])
    end.
Proof.
  unfold chat_endpoint, with_span, try_finally, log, emit.
  generalize (call_nlp_service w
                (getenv w "NLP_SERVICE_URL" "http://localhost:8001") req).
  generalize (publish_step w ctx (getenv w "RABBITMQ_QUEUE" "chat-jobs") req).
  intros [[[]|e] t] [[c|e'] t']; simpl; by rewrite ?app_nil_r.
Qed.

Lemma in_range_2xx s :
  (200 <=? s) && (s <=? 299) = true <-> 200 <= s <= 299.
Proof. rewrite andb_true_iff, !Z.leb_le. tauto. Qed.

(** C3. Gateway failure mapping: when the publish of a POST /chat request
    has succeeded, a classify call that gets no response (transport failure,
    timeout) or a status outside 2xx makes the endpoint answer 502 with the
    detail "NLP service unavailable"; a 2xx response whose body decodes to
    [v] makes it answer 200 with the body [{ok: true, classification: v}]. *)
Theorem chat_endpoint_failure_mapping w ctx req :
  outcome (publish_to_rabbitmq w (start_span "publish_to_rabbitmq" PRODUCER ctx)
             (getenv w "RABBITMQ_QUEUE" "chat-jobs")
             (PDict {[ "message" := PStr (message req) ]})) = Ok tt ->
  match http_server w (getenv w "NLP_SERVICE_URL" "http://localhost:8001")
          "/classify" (PDict {[ "text" := PStr (message req) ]}) with
  | NoResponse =>
    respond (outcome (chat_endpoint w ctx req))
      = (502, PDict {[ "detail" := PStr "NLP service unavailable" ]})
  | Response s c =>
    (~ 200 <= s <= 299 ->
     respond (outcome (chat_endpoint w ctx req))
       = (502, PDict {[ "detail" := PStr "NLP service unavailable" ]})) /\
    (200 <= s <= 299 -> forall v, response_json c = Some v ->
     respond (outcome (chat_endpoint w ctx req))
       = (200, PDict {[ "ok" := PBool true; "classification" := v ]}))
  end.
Proof.
  intros Hpub. rewrite chat_endpoint_run. cbv zeta.
  rewrite publish_step_run. cbv zeta. unfold outcome at 1. simpl fst.
  rewrite Hpub, call_nlp_service_run. cbv zeta.
  destruct (http_server _ _ _ _) as [|s c]; [done|].
  destruct ((200 <=? s) && (s <=? 299)) eqn:E.
  - apply in_range_2xx in E. split; [tauto|].
    intros _ v ->. reflexivity.
  - split; [done|]. intros E'%in_range_2xx. congruence.
Qed.

End publisher.

Section gateway.
Context `{Runtime}.
Import ChatService.

(** The events of [chat_endpoint] around those of its publish. *)
Lemma chat_endpoint_trace w ctx req :
  let pub := publish_to_rabbitmq w
               (start_span "publish_to_rabbitmq" PRODUCER ctx)
               (getenv w "RABBITMQ_QUEUE" "chat-jobs")
               (PDict {[ "message" := PStr (message req) ]}) in
  exists pre post,
    trace (chat_endpoint w ctx req) = pre ++ trace pub ++ post /\
    Forall (fun ev => is_amqp ev = false) pre /\
    Forall (fun ev => is_http_post ev = false) pre /\
    Forall (fun ev => is_amqp ev = false) post /\
    (forall e, outcome pub = Raise e -> post = [SpanEnd "publish_to_rabbitmq"]).
Proof.
  intros pub. rewrite chat_endpoint_run. cbv zeta.
  rewrite publish_step_run. cbv zeta. fold pub.
  unfold outcome at 1, trace at 1 3. simpl fst. simpl snd.
  eexists [_; _; _; _].
  destruct (outcome pub) as [[]|e].
  - rewrite call_nlp_service_run. cbv zeta.
    eexists (_ :: _ :: _). split; [simpl; by rewrite <- !app_assoc|].
    repeat split; try by repeat constructor.
    destruct (http_server _ _ _ _) as [|s c]; [by repeat constructor|].
    destruct ((200 <=? s) && (s <=? 299)); by repeat constructor.
  - eexists [_]. split; [done|].
    repeat split; by repeat constructor.
Qed.

(** C6. Publisher contract: a call of [publish_to_rabbitmq queue_name
    payload] declares no queue but [queue_name], as durable, and publishes
    no message but the one whose body is the UTF-8 bytes of the JSON text of
    [payload], with delivery mode 2 and, as headers, the carrier that
    [inject] filled from the current context; it does declare the queue once
    it has a channel, and does publish once the queue is declared; a call
    that returns has made its six calls in order, from opening the
    connection to closing it; it returns when no AMQP call fails; and in
    [chat_endpoint] whatever follows the publish issues no AMQP call: the
    publish is complete when the caller goes on. *)
Theorem publisher_contract w ctx queue_name payload :
  let run := publish_to_rabbitmq w ctx queue_name payload in
  let declare := queue_declare queue_name true in
  let publish :=
    basic_publish "" queue_name (str_encode (json_dumps payload))
      {| content_type := Some "application/json";
         delivery_mode := Some 2;
         headers := Some (dict_items (inject ctx ∅)) |} in
  (forall q d, Amqp (queue_declare q d) ∈ trace run -> q = queue_name /\ d = true) /\
  (forall e rk b p, Amqp (basic_publish e rk b p) ∈ trace run ->
     basic_publish e rk b p = publish) /\
  (amqp_fault w (BlockingConnection (getenv w "RABBITMQ_HOST" "localhost")) = None ->
   amqp_fault w channel = None ->
   Amqp declare ∈ trace run /\
   (amqp_fault w declare = None -> Amqp publish ∈ trace run)) /\
  (outcome run = Ok tt ->
   trace run = Amqp <$> [BlockingConnection (getenv w "RABBITMQ_HOST" "localhost");
                         channel; declare; publish; channel_close;
                         connection_close]) /\
  ((forall c, amqp_fault w c = None) -> outcome run = Ok tt) /\
  (forall ctx0 req, exists pre post,
     trace (chat_endpoint w ctx0 req)
       = pre ++ trace (publish_to_rabbitmq w
                         (start_span "publish_to_rabbitmq" PRODUCER ctx0)
                         (getenv w "RABBITMQ_QUEUE" "chat-jobs")
                         (PDict {[ "message" := PStr (message req) ]}))
             ++ post /\
     Forall (fun ev => is_amqp ev = false) pre /\
     Forall (fun ev => is_amqp ev = false) post).
Proof.
  intros run declare publish.
  assert (Hcalls : forall c, Amqp c ∈ trace run ->
            c ∈ publish_calls w ctx queue_name payload).
  { intros c Hc%publish_events.
    apply list_elem_of_fmap in Hc as (c' & [= ->] & Hc). done. }
  unfold publish_calls in Hcalls. subst declare publish.
  split; [|split; [|split; [|split; [|split]]]].
  - intros q d Hin%Hcalls. rewrite !elem_of_cons, elem_of_nil in Hin.
    destruct Hin as [?|[?|[?|[?|[?|[?|[]]]]]]]; split; congruence.
  - intros e rk b p Hin%Hcalls. rewrite !elem_of_cons, elem_of_nil in Hin.
    destruct Hin as [?|[?|[?|[?|[?|[?|[]]]]]]]; congruence.
  - apply publish_declares.
  - apply publish_returns.
  - apply publish_no_fault.
  - intros ctx0 req.
    destruct (chat_endpoint_trace w ctx0 req) as (pre & post & ? & ? & ? & ? & ?).
    eauto.
Qed.

(** C7. Publish failure is fatal and ordered: in every run of
    [chat_endpoint] the events of the publish come before any HTTP call and
    nothing after them is an AMQP call; and when [publish_to_rabbitmq]
    raises, [chat_endpoint] raises the same exception, one of pika's, issues
    no HTTP call at all, and the client is answered neither 200 nor 502 but
    the 500 of an unhandled exception. *)
Theorem publish_failure_is_fatal w ctx req :
  let pub := publish_to_rabbitmq w
               (start_span "publish_to_rabbitmq" PRODUCER ctx)
               (getenv w "RABBITMQ_QUEUE" "chat-jobs")
               (PDict {[ "message" := PStr (message req) ]}) in
  let run := chat_endpoint w ctx req in
  (exists pre post,
     trace run = pre ++ trace pub ++ post /\
     Forall (fun ev => is_http_post ev = false) (pre ++ trace pub) /\
     Forall (fun ev => is_amqp ev = false) post) /\
  (forall e, outcome pub = Raise e ->
     outcome run = Raise e /\
     (exists a, e = AMQPError a) /\
     Forall (fun ev => is_http_post ev = false) (trace run) /\
     respond (outcome run) = (500, PStr "Internal Server Error")).
Proof.
  intros pub run.
  assert (Hpub : Forall (fun ev => is_http_post ev = false) (trace pub)).
  { eapply Forall_impl; [apply publish_trace_amqp|].
    intros [] Hev; done. }
  destruct (chat_endpoint_trace w ctx req)
    as (pre & post & Htr & Hpre & Hpre' & Hpost & Hraise).
  fold pub run in Htr, Hraise. split.
  - exists pre, post. split; [done|]. split; [|done].
    by apply Forall_app.
  - intros e He. destruct (publish_raises _ _ _ _ _ He) as [a ->].
    assert (Hrun : outcome run = Raise (AMQPError a)).
    { unfold run. rewrite chat_endpoint_run. cbv zeta.
      rewrite publish_step_run. cbv zeta. fold pub.
      unfold outcome at 1. simpl fst. by rewrite He. }
    split; [done|]. split; [eauto|]. split.
    + rewrite Htr, (Hraise _ He).
      rewrite !Forall_app. repeat split; try done. by repeat constructor.
    + by rewrite Hrun.
Qed.

(** C10. The 502 of [chat_endpoint] has one cause: the client gets 502
    "NLP service unavailable" only if the call of [/classify] raised an
    [httpx.HTTPError], a transport error or the status error of a response
    outside 2xx; and after a successful publish a 2xx response whose body
    does not decode makes the endpoint raise the decoder's error, which
    the handler does not catch, so that the client gets 500 and not 502. *)
Theorem nlp_unavailable_only_if w ctx req :
  let pub := publish_to_rabbitmq w
               (start_span "publish_to_rabbitmq" PRODUCER ctx)
               (getenv w "RABBITMQ_QUEUE" "chat-jobs")
               (PDict {[ "message" := PStr (message req) ]}) in
  let nlp_url := getenv w "NLP_SERVICE_URL" "http://localhost:8001" in
  let run := chat_endpoint w ctx req in
  (respond (outcome run)
     = (502, PDict {[ "detail" := PStr "NLP service unavailable" ]}) ->
   exists e, outcome (classify_call w nlp_url req) = Raise e /\
     is_HTTPError e = true /\
     (e = TransportError \/ exists s, e = HTTPStatusError s /\ ~ 200 <= s <= 299)) /\
  (forall s c,
     outcome pub = Ok tt ->
     http_server w nlp_url "/classify"
       (PDict {[ "text" := PStr (message req) ]}) = Response s c ->
     200 <= s <= 299 ->
     response_json c = None ->
     outcome run = Raise JSONDecodeError /\
     respond (outcome run) = (500, PStr "Internal Server Error")).
Proof.
  intros pub nlp_url run. unfold run.
  rewrite chat_endpoint_run. cbv zeta.
  rewrite publish_step_run. cbv zeta. fold pub nlp_url.
  unfold outcome at 1 5. simpl fst.
  rewrite call_nlp_service_run, classify_call_run. cbv zeta.
  split.
  - destruct (outcome pub) as [[]|e] eqn:Hpub.
    + destruct (http_server _ _ _ _) as [|s c]; simpl.
      { intros _. exists TransportError. eauto. }
      destruct ((200 <=? s) && (s <=? 299)) eqn:E; simpl.
      * destruct (response_json c); simpl; intros [=].
      * intros _. exists (HTTPStatusError s). repeat split; [].
        right. exists s. split; [done|].
        intros E'%in_range_2xx. congruence.
    + destruct (publish_raises _ _ _ _ _ Hpub) as [a ->]. intros [=].
  - intros s c -> -> Hs%in_range_2xx ->. rewrite Hs. done.
Qed.

End gateway.

(** ** The worker *)

Section worker.
Context `{Runtime}.
Import ChatService Worker.

#[local] Arguments utf8_seq_len : simpl never.

(** Under [errors="ignore"] decoding never raises. *)
Lemma decode_ignore_total (l : list byte) skip :
  exists r, decode_from ignore skip l = Ok r.
Proof.
  revert skip. induction l as [|b l IH]; intros skip; simpl; [eauto|].
  destruct skip as [|k].
  - destruct (utf8_seq_len (b :: l)) as [|k]; [apply IH|].
    destruct (IH k) as [r ->]. simpl. eauto.
  - destruct (IH k) as [r ->]. simpl. eauto.
Qed.

Lemma bytes_decode_ignore_total (b : list byte) :
  exists s, bytes_decode ignore b = Ok s.
Proof.
  unfold bytes_decode. destruct (decode_ignore_total b 0) as [r ->].
  simpl. eauto.
Qed.

(** The loop raises only on a [bytes] key that is not UTF-8. *)
Lemma normalize_items_total items normalized :
  Forall (fun kv => forall b, fst kv = HBytes b ->
            exists s, bytes_decode strict b = Ok s) items ->
  exists d, normalize_items items normalized = Ok d.
Proof.
  intros Hkeys. revert normalized.
  induction Hkeys as [|[k v] items Hk _ IH]; intros normalized; simpl; [eauto|].
  assert (exists key, match k with
                      | HBytes b => bytes_decode strict b
                      | HStr s => Ok s
                      | HOther x => Ok (py_str x)
                      end = Ok key) as [key ->].
  { destruct k as [s|b|x]; eauto. }
  simpl. destruct v as [s|b|x]; try apply IH.
  destruct (bytes_decode_ignore_total b) as [val ->]. simpl. apply IH.
Qed.

Lemma normalize_headers_total headers :
  Forall (fun kv => forall b, fst kv = HBytes b ->
            exists s, bytes_decode strict b = Ok s) (default [] headers) ->
  exists d, _normalize_headers headers = Ok d.
Proof.
  destruct headers as [[|kv items]|]; simpl; eauto.
  apply (normalize_items_total (kv :: items)).
Qed.

(** On a table of [str] keys and values the loop rebuilds the dictionary. *)
Lemma normalize_items_text (l : list (string * string)) (acc : gmap string string) :
  NoDup l.*1 ->
  normalize_items ((fun kv => (HStr (fst kv), HStr (snd kv))) <$> l) acc
    = Ok (list_to_map l ∪ acc).
Proof.
  revert acc. induction l as [|[k v] l IH]; intros acc Hnd.
  - simpl. by rewrite (left_id_L ∅ (∪)).
  - inversion Hnd as [|? ? Hk Hl]; subst. simpl.
    rewrite IH by done. f_equal.
    rewrite <- insert_union_l. symmetry.
    apply insert_union_r. by apply not_elem_of_list_to_map_1.
Qed.

Lemma normalize_dict_items (d : gmap string string) :
  _normalize_headers (Some (dict_items d)) = Ok d.
Proof.
  unfold _normalize_headers, dict_items.
  destruct (map_to_list d) as [|kv l] eqn:E.
  - apply map_to_list_empty_iff in E. by subst.
  - change (normalize_items
              ((fun kv => (HStr (fst kv), HStr (snd kv))) <$> (kv :: l)) ∅
            = Ok d).
    rewrite <- E, normalize_items_text by apply NoDup_fst_map_to_list.
    by rewrite list_to_map_to_list, (right_id_L ∅ (∪)).
Qed.

(** [on_message] by the outcome of the normalization, which runs before the
    span is opened and outside the [try]. *)
Lemma on_message_run w queue_name dotnet_url method properties body :
  on_message w queue_name dotnet_url method properties body =
    match _normalize_headers (headers properties) with
    | Raise e => (Raise e, [])
    | Ok carrier =>
      let run := process w dotnet_url method body in
      (outcome run,
       [SpanStart "rabbitmq.process" CONSUMER
          (get_span_context
             (start_span "rabbitmq.process" CONSUMER (extract carrier)));
        SetAttribute "messaging.system" (PStr "rabbitmq");
        SetAttribute "messaging.destination" (PStr queue_name);
        SetAttribute "messaging.operation" (PStr "process")]
       ++ trace run ++ [SpanEnd "rabbitmq.process"])
    end.
Proof.
  unfold on_message, lift.
  destruct (_normalize_headers (headers properties)) as [carrier|e]; [|done].
  unfold with_span, set_attribute, emit, try_finally. simpl.
  by destruct (process w dotnet_url method body).
Qed.

(** What the steps of the [try] block raise is caught by
    [except Exception]. *)
Lemma decode_from_raises mode skip l e :
  decode_from mode skip l = Raise e -> e = UnicodeDecodeError.
Proof.
  revert skip. induction l as [|b l IH]; intros skip; simpl; [done|].
  destruct skip as [|k].
  - destruct (utf8_seq_len (b :: l)) as [|k].
    + destruct mode; [by intros [= <-]|apply IH].
    + destruct (decode_from mode k l) eqn:E; simpl; [done|].
      intros [= <-]. by apply (IH k).
  - destruct (decode_from mode k l) eqn:E; simpl; [done|].
    intros [= <-]. by apply (IH k).
Qed.

Lemma is_Exception_decode mode b e :
  bytes_decode mode b = Raise e -> is_Exception e = true.
Proof.
  unfold bytes_decode. destruct (decode_from mode 0 b) eqn:E; simpl; [done|].
  intros [= <-]. by rewrite (decode_from_raises _ _ _ _ E).
Qed.

Lemma is_Exception_get v key dflt e :
  py_get v key dflt = Raise e -> is_Exception e = true.
Proof. destruct v; simpl; by intros [= <-]. Qed.

Lemma is_Exception_len v e :
  py_len v = Raise e -> is_Exception e = true.
Proof. destruct v; simpl; by intros [= <-]. Qed.

(** The [try] statement settles the delivery exactly once, as long as the
    acknowledgement itself goes through: an ack and no nack, or a nack
    without requeue and no ack. *)
Lemma process_settles w dotnet_url method body :
  amqp_fault w (basic_ack (delivery_tag method)) = None ->
  let t := trace (process w dotnet_url method body) in
  (count is_ack t = 1%nat /\ count is_nack t = 0%nat) \/
  (count is_ack t = 0%nat /\ count is_nack t = 1%nat /\
   Amqp (basic_nack (delivery_tag method) false) ∈ t).
Proof.
  intros Hack. unfold process, try_except, lift, log, emit, amqp, client_post,
    raise_for_status, resp_json, raise.
  rewrite Hack.
  destruct (bytes_decode strict body) as [decoded|e] eqn:Hdecode; simpl;
    [|rewrite (is_Exception_decode _ _ _ Hdecode);
      right; repeat split; set_solver].
  destruct (json_loads decoded) as [payload|]; simpl;
    [|right; repeat split; set_solver].
  destruct (py_get payload "message" (PStr "")) as [message|e] eqn:Hget; simpl;
    [|rewrite (is_Exception_get _ _ _ _ Hget);
      right; repeat split; set_solver].
  destruct (py_len message) as [n|e] eqn:Hlen; simpl;
    [|rewrite (is_Exception_len _ _ Hlen); right; repeat split; set_solver].
  destruct (http_server _ _ _ _) as [|s c]; simpl;
    [right; repeat split; set_solver|].
  destruct (is_success _); simpl; [|right; repeat split; set_solver].
  destruct (response_json c); simpl; [|right; repeat split; set_solver].
  left. done.
Qed.

End worker.

Section worker_claims.
Context `{Runtime}.
Import ChatService Worker.

(** A delivery whose header table normalizes is settled exactly once, as
    long as the acknowledgement itself goes through. *)
Lemma on_message_settles w queue_name dotnet_url method properties body carrier :
  _normalize_headers (headers properties) = Ok carrier ->
  amqp_fault w (basic_ack (delivery_tag method)) = None ->
  let t := trace (on_message w queue_name dotnet_url method properties body) in
  (count is_ack t = 1%nat /\ count is_nack t = 0%nat) \/
  (count is_ack t = 0%nat /\ count is_nack t = 1%nat /\
   Amqp (basic_nack (delivery_tag method) false) ∈ t).
Proof.
  intros Hnorm Hack. rewrite on_message_run, Hnorm. cbv zeta.
  unfold trace at 1. simpl snd. unfold count. simpl.
  rewrite !List.filter_app, !length_app. simpl. rewrite !Nat.add_0_r.
  destruct (process_settles w dotnet_url method body Hack)
    as [[Ha Hn]|(Ha & Hn & Hin)]; unfold count in Ha, Hn; rewrite Ha, Hn.
  - by left.
  - right. repeat split; [].
    do 4 apply list_elem_of_further. apply elem_of_app. by left.
Qed.

(** C1. Context round-trip, given a propagator that finds an injected valid
    span context again and a tracer whose spans join the trace of a valid
    parent: whatever valid span context is current when
    [publish_to_rabbitmq] is called, a worker that is delivered the message
    the gateway published, with its properties, opens its CONSUMER span
    [rabbitmq.process] in the trace of that context. *)
Theorem context_round_trip w ctx queue_name payload exchange routing_key body
    properties w' worker_queue dotnet_url method :
  propagator_round_trips ->
  child_span_joins_trace ->
  is_valid (get_span_context ctx) = true ->
  Amqp (basic_publish exchange routing_key body properties)
    ∈ trace (publish_to_rabbitmq w ctx queue_name payload) ->
  exists sc,
    SpanStart "rabbitmq.process" CONSUMER sc
      ∈ trace (on_message w' worker_queue dotnet_url method properties body) /\
    trace_id sc = trace_id (get_span_context ctx).
Proof.
  intros Hprop Hchild Hvalid Hin.
  apply publish_events, list_elem_of_fmap in Hin as (c & [= <-] & Hc).
  unfold publish_calls in Hc. rewrite !elem_of_cons, elem_of_nil in Hc.
  destruct Hc as [?|[?|[?|[Hc|[?|[?|[]]]]]]]; try discriminate.
  injection Hc as -> -> -> ->.
  rewrite on_message_run. cbn [headers]. rewrite normalize_dict_items.
  cbv zeta. eexists. split; [apply list_elem_of_here|].
  destruct (Hprop ctx Hvalid) as [Hvalid' <-].
  by apply Hchild.
Qed.

(** C2, on the input where the code departs from it: a delivery whose
    header table has the key [b"\xff"].  The normalization of the headers
    raises [UnicodeDecodeError] before the [try] is entered, the exception
    leaves [on_message], and neither [basic_ack] nor [basic_nack] has been
    called. *)
Theorem on_message_leaves_delivery_unsettled w queue_name dotnet_url method
    value body :
  let properties := {| content_type := None; delivery_mode := None;
                       headers := Some [(HBytes [xff], value)] |} in
  let run := on_message w queue_name dotnet_url method properties body in
  outcome run = Raise UnicodeDecodeError /\
  count is_ack (trace run) = 0%nat /\
  count is_nack (trace run) = 0%nat.
Proof.
  intros properties run. unfold run. rewrite on_message_run.
  subst properties. cbn [headers]. done.
Qed.

(** With such a delivery first in line, the exception leaves
    [start_consuming] and [main]: the worker closes its connection and
    stops, and no delivery was acknowledged or rejected, the later ones
    included. *)
Lemma main_stops_on_undecodable_key w method value body rest :
  (forall c, amqp_fault w c = None) ->
  let poisoned : delivery :=
    (method,
     {| content_type := None; delivery_mode := None;
        headers := Some [(HBytes [xff], value)] |},
     body) in
  let run := main w (poisoned :: rest) in
  outcome run = Raise UnicodeDecodeError /\
  count is_ack (trace run) = 0%nat /\
  count is_nack (trace run) = 0%nat /\
  last (trace run) = Some (Amqp connection_close).
Proof.
  intros Hw poisoned run. unfold run, main, amqp. rewrite !Hw.
  subst poisoned. cbn [start_consuming]. rewrite on_message_run.
  cbn [headers]. done.
Qed.

(** C5, on the input where the code departs from it: [_normalize_headers]
    raises [UnicodeDecodeError] on a table whose key is the [bytes]
    [b"\xff"], which is not UTF-8, whereas the same bytes as a value are
    decoded with [errors="ignore"] to the empty string. *)
Theorem normalize_headers_raises_on_bytes_key value :
  _normalize_headers (Some [(HBytes [xff], value)]) = Raise UnicodeDecodeError /\
  _normalize_headers (Some [(HStr "k", HBytes [xff])]) = Ok {[ "k" := "" ]}.
Proof. split; reflexivity. Qed.

End worker_claims.

(** ** The classification service *)

Section classifier.
Context `{Runtime}.
Import NlpService.

(** [int] raises nothing but the errors of a failed conversion. *)
Lemma py_int_raises v e :
  py_int v = Raise e -> e = TypeError \/ e = ValueError \/ e = OverflowError.
Proof.
  destruct v as [|b|z|f|s|l|d]; simpl; try (intros [= <-]; tauto).
  - unfold int_of_float. destruct (Prim2SF f); intros [= <-]; tauto.
  - destruct (int_of_str s); simpl; intros [= <-]; tauto.
Qed.

(** The [try] statement passes on what the call of [/analyze] returns. *)
Lemma call_analyze_returns w url req analysis :
  outcome (analyze_call w url req) = Ok analysis ->
  outcome (call_analyze w url req) = Ok analysis.
Proof.
  unfold call_analyze, try_except.
  destruct (analyze_call w url req) as [[a|e] t]; simpl; congruence.
Qed.

(** After a successful call of [/analyze] the endpoint ends as [classify]
    does on the decoded body. *)
Lemma classify_endpoint_outcome w req analysis :
  outcome (analyze_call w (getenv w "DOTNET_SERVICE_URL" "http://localhost:8080")
             req) = Ok analysis ->
  outcome (classify_endpoint w req) = classify analysis.
Proof.
  intros Hcall%call_analyze_returns. unfold classify_endpoint, log, emit, lift.
  simpl. rewrite (bind_ok _ _ _ Hcall). reflexivity.
Qed.

(** C4. Classification boundary: for every body [analysis] that a
    successful call of [/analyze] returned, if the value of its [length]
    field (0 when the field is absent) converts to the integer [length],
    [classify_endpoint] returns [{classification, analysis}] where
    [classification] is ["short"] when [length < 20] and ["long"]
    otherwise: 19 gives ["short"] and 20 gives ["long"]. *)
Theorem classification_boundary w req analysis got length :
  outcome (analyze_call w (getenv w "DOTNET_SERVICE_URL" "http://localhost:8080")
             req) = Ok analysis ->
  py_get analysis "length" (PInt 0) = Ok got ->
  py_int got = Ok length ->
  exists classification,
    outcome (classify_endpoint w req)
      = Ok (PDict {[ "classification" := PStr classification;
                     "analysis" := analysis ]}) /\
    (length < 20 -> classification = "short") /\
    (20 <= length -> classification = "long").
Proof.
  intros Hcall Hget Hint.
  rewrite (classify_endpoint_outcome _ _ _ Hcall).
  unfold classify. rewrite Hget. simpl. rewrite Hint. simpl.
  eexists. split; [reflexivity|].
  destruct (Z.ltb_spec length 20); split; intros; (done || lia).
Qed.

(** C9. Implicit length default: after a successful call of [/analyze],
    a body that is a dictionary without a [length] field has its length
    taken as 0 and is classified ["short"]; and when [int] raises on the
    value of the field, [classify_endpoint] raises that error, which is no
    [HTTPException]: the client gets the 500 of an unhandled exception and
    not the 502 "Analyze service unavailable". *)
Theorem length_default w req analysis :
  outcome (analyze_call w (getenv w "DOTNET_SERVICE_URL" "http://localhost:8080")
             req) = Ok analysis ->
  (forall d, analysis = PDict d -> d !! "length" = None ->
     py_get analysis "length" (PInt 0) = Ok (PInt 0) /\
     outcome (classify_endpoint w req)
       = Ok (PDict {[ "classification" := PStr "short";
                      "analysis" := analysis ]})) /\
  (forall got e,
     py_get analysis "length" (PInt 0) = Ok got ->
     py_int got = Raise e ->
     outcome (classify_endpoint w req) = Raise e /\
     respond (outcome (classify_endpoint w req))
       = (500, PStr "Internal Server Error")).
Proof.
  intros Hcall. rewrite (classify_endpoint_outcome _ _ _ Hcall). split.
  - intros d -> Hd. unfold classify. simpl. rewrite Hd. done.
  - intros got e Hget Hint. unfold classify. rewrite Hget. simpl.
    rewrite Hint. simpl. split; [done|].
    destruct (py_int_raises _ _ Hint) as [->|[->| ->]]; reflexivity.
Qed.

End classifier.

(** ** The chunk stream *)

Section stream.
Import ChatService.

(** C8. Stream behaviour: the response of GET /chat-stream is a plain-text
    stream whose body, once the server has taken at least six steps of the
    generator, has been sent in full: five chunks, [chunk-0\n] to
    [chunk-4\n] in this order, each logged as it is emitted, a sleep of 0.5
    after each of them, and nothing more, since the sixth step finds the
    generator finished. *)
Theorem chat_stream_emits_five_chunks (fuel : nat) :
  (6 <= fuel)%nat ->
  exists response,
    outcome chat_stream = Ok response /\
    media_type response = "text/plain" /\
    send_body fuel (body_iterator response) = Some
      [ Log INFO "stream_chunk_emitted index=%d";
        Yield (str_encode ("chunk-0" +:+ newline)); Sleep 0.5%float;
        Log INFO "stream_chunk_emitted index=%d";
        Yield (str_encode ("chunk-1" +:+ newline)); Sleep 0.5%float;
        Log INFO "stream_chunk_emitted index=%d";
        Yield (str_encode ("chunk-2" +:+ newline)); Sleep 0.5%float;
        Log INFO "stream_chunk_emitted index=%d";
        Yield (str_encode ("chunk-3" +:+ newline)); Sleep 0.5%float;
        Log INFO "stream_chunk_emitted index=%d";
        Yield (str_encode ("chunk-4" +:+ newline)); Sleep 0.5%float ] /\
    stream_generator (Suspended 4) = ([Sleep 0.5%float], None, Finished).
Proof.
  intros Hfuel.
  do 6 (destruct fuel as [|fuel]; [lia|]).
  eexists. split; [reflexivity|]. split; [reflexivity|].
  split; reflexivity.
Qed.

End stream.

(** ** The reference runtime meets what the services rely on *)

Section reference_facts.
Import Reference.

Lemma of_hex_digit_hex_digit (d : N) :
  (d < 16)%N -> of_hex_digit (hex_digit d) = Some d.
Proof.
  intros Hd.
  assert (Hcases : Forall (fun d => of_hex_digit (hex_digit d) = Some d)
                     (N.of_nat <$> seq 0 16)).
  { vm_compute. repeat constructor. }
  rewrite Forall_forall in Hcases. apply Hcases.
  apply list_elem_of_fmap. exists (N.to_nat d). split; [lia|].
  apply elem_of_seq. lia.
Qed.

Lemma take_hex_to_hex (width : nat) (acc n : N) (rest : string) :
  take_hex width acc (to_hex width n +:+ rest)
    = Some ((acc * 16 ^ N.of_nat width + n mod 16 ^ N.of_nat width)%N, rest).
Proof.
  revert acc. induction width as [|w IH]; intros acc.
  - simpl. rewrite N.mod_1_r. do 2 f_equal. lia.
  - cbn [to_hex].
    change (String ?c ?s +:+ rest) with (String c (s +:+ rest)).
    cbn [take_hex].
    rewrite of_hex_digit_hex_digit by (apply N.mod_lt; lia).
    cbn [mbind option_bind]. rewrite IH. do 2 f_equal.
    rewrite Nat2N.inj_succ, N.pow_succ_r'.
    rewrite (N.mul_comm 16), N.Div0.mod_mul_r. lia.
Qed.

Lemma append_empty_r (s : string) : s +:+ "" = s.
Proof.
  induction s as [|c s IH]; [done|].
  change (String c (s +:+ "") = String c s). congruence.
Qed.

(** A valid span context is read back from its [traceparent]. *)
Lemma parse_traceparent_traceparent (sc : SpanContext) :
  is_valid sc = true ->
  parse_traceparent (traceparent sc)
    = Some {| trace_id := trace_id sc; span_id := span_id sc;
              trace_flags := trace_flags sc mod 256; is_remote := true |}.
Proof.
  intros Hvalid. pose proof Hvalid as Hv. unfold is_valid in Hv.
  rewrite !andb_true_iff, !N.ltb_lt, !N.leb_le in Hv.
  destruct Hv as [[[Ht0 Ht] Hs0] Hs].
  unfold parse_traceparent, traceparent.
  change ("00-" +:+ ?x) with (String "0" (String "0" (String "-" x))).
  change ("-" +:+ ?x) with (String "-" x).
  change (take_hex 2 0 (String "0" (String "0" ?x))) with (Some (0%N, x)).
  cbn [mbind option_bind take_dash].
  rewrite take_hex_to_hex. cbn [mbind option_bind take_dash].
  change ("-" +:+ ?x) with (String "-" x).
  rewrite take_hex_to_hex. cbn [mbind option_bind take_dash].
  change ("-" +:+ ?x) with (String "-" x). cbn [take_dash mbind option_bind].
  rewrite <- (append_empty_r (to_hex 2 _)), take_hex_to_hex.
  cbn [mbind option_bind].
  change (16 ^ N.of_nat 32)%N with (2 ^ 128)%N.
  change (16 ^ N.of_nat 16)%N with (2 ^ 64)%N.
  change (16 ^ N.of_nat 2)%N with 256%N.
  rewrite !N.mul_0_l, !N.add_0_l.
  rewrite (N.mod_small (trace_id sc)) by lia.
  rewrite (N.mod_small (span_id sc)) by lia.
  case_decide as Hd; [done|]. destruct Hd. done.
Qed.

Lemma reference_round_trips doc :
  @propagator_round_trips (runtime doc).
Proof.
  intros ctx Hvalid.
  change (is_valid (ref_span_context ctx) = true) in Hvalid.
  change (is_valid (ref_span_context (ref_extract (ref_inject ctx ∅))) = true /\
          trace_id (ref_span_context (ref_extract (ref_inject ctx ∅)))
            = trace_id (ref_span_context ctx)).
  unfold ref_inject, ref_extract. rewrite Hvalid, lookup_insert_eq.
  cbn [mbind option_bind].
  rewrite parse_traceparent_traceparent by done.
  split; [|reflexivity]. exact Hvalid.
Qed.

Lemma reference_child_joins doc :
  @child_span_joins_trace (runtime doc).
Proof.
  intros name kind parent. cbn. intros Hvalid.
  unfold ref_start_span. cbn. by rewrite Hvalid.
Qed.

End reference_facts.

(** ** The properties at work on the reference runtime *)

Section scenarios.
Import Reference.

(** The span context of [sample_context] crosses the queue: the worker's
    span is in trace 4bf92f3577b34da6a3ce929d0e0e4736. *)
Lemma context_round_trip_witness :
  exists sc,
    SpanStart "rabbitmq.process" CONSUMER sc
      ∈ trace (Worker.on_message (H := runtime None) (world NoResponse)
                 "chat-jobs" "http://localhost:8080"
                 {| Worker.delivery_tag := 1 |}
                 {| content_type := Some "application/json";
                    delivery_mode := Some 2;
                    headers := Some (ChatService.dict_items
                                       (ref_inject sample_context ∅)) |}
                 (str_encode "{}")) /\
    trace_id sc = 0x4bf92f3577b34da6a3ce929d0e0e4736%N.
Proof.
  apply (context_round_trip (H := runtime None) (world NoResponse)
           sample_context "chat-jobs" (PDict {[ "message" := PStr "hello" ]})
           "" "chat-jobs").
  - apply reference_round_trips.
  - apply reference_child_joins.
  - reflexivity.
  - do 3 apply list_elem_of_further. apply list_elem_of_here.
Defined.

(** A classification service that answers 500, or does not answer, makes
    the gateway answer 502; a healthy one makes it answer 200 with the
    classification. *)
Lemma chat_endpoint_failure_mapping_witness :
  respond (outcome (ChatService.chat_endpoint (H := runtime None)
                      (world (Response 500 [])) sample_context hello))
    = (502, PDict {[ "detail" := PStr "NLP service unavailable" ]}) /\
  respond (outcome (ChatService.chat_endpoint (H := runtime None)
                      (world NoResponse) sample_context hello))
    = (502, PDict {[ "detail" := PStr "NLP service unavailable" ]}) /\
  respond (outcome (ChatService.chat_endpoint (H := runtime (Some short_hello))
                      (world (Response 200 [])) sample_context hello))
    = (200, PDict {[ "ok" := PBool true; "classification" := short_hello ]}).
Proof.
  split; [|split].
  - apply (chat_endpoint_failure_mapping (H := runtime None)
             (world (Response 500 [])) sample_context hello eq_refl). lia.
  - apply (chat_endpoint_failure_mapping (H := runtime None)
             (world NoResponse) sample_context hello eq_refl).
  - apply (chat_endpoint_failure_mapping (H := runtime (Some short_hello))
             (world (Response 200 [])) sample_context hello eq_refl);
      [lia | reflexivity].
Defined.

(** A body of length 19 is short, one of length 20 is long. *)
Lemma classification_boundary_witness :
  outcome (NlpService.classify_endpoint
             (H := runtime (Some (PDict {[ "length" := PInt 19 ]})))
             (world (Response 200 [])) {| NlpService.text := "hello" |})
    = Ok (PDict {[ "classification" := PStr "short";
                   "analysis" := PDict {[ "length" := PInt 19 ]} ]}) /\
  outcome (NlpService.classify_endpoint
             (H := runtime (Some (PDict {[ "length" := PInt 20 ]})))
             (world (Response 200 [])) {| NlpService.text := "hello" |})
    = Ok (PDict {[ "classification" := PStr "long";
                   "analysis" := PDict {[ "length" := PInt 20 ]} ]}).
Proof.
  split.
  - destruct (classification_boundary
                (H := runtime (Some (PDict {[ "length" := PInt 19 ]})))
                (world (Response 200 [])) {| NlpService.text := "hello" |}
                (PDict {[ "length" := PInt 19 ]}) (PInt 19) 19
                ltac:(vm_compute; reflexivity) ltac:(vm_compute; reflexivity)
                eq_refl) as (c & -> & Hshort & _).
    rewrite Hshort by lia. reflexivity.
  - destruct (classification_boundary
                (H := runtime (Some (PDict {[ "length" := PInt 20 ]})))
                (world (Response 200 [])) {| NlpService.text := "hello" |}
                (PDict {[ "length" := PInt 20 ]}) (PInt 20) 20
                ltac:(vm_compute; reflexivity) ltac:(vm_compute; reflexivity)
                eq_refl) as (c & -> & _ & Hlong).
    rewrite Hlong by lia. reflexivity.
Defined.

(** With a broker that answers, the publish returns after its six calls. *)
Lemma publisher_contract_witness :
  trace (ChatService.publish_to_rabbitmq (H := runtime None)
           (world NoResponse) sample_context "chat-jobs"
           (PDict {[ "message" := PStr "hello" ]}))
    = Amqp <$> [ BlockingConnection "localhost";
                 channel;
                 queue_declare "chat-jobs" true;
                 basic_publish "" "chat-jobs" (str_encode "{}")
                   {| content_type := Some "application/json";
                      delivery_mode := Some 2;
                      headers := Some (ChatService.dict_items
                                         (ref_inject sample_context ∅)) |};
                 channel_close;
                 connection_close ].
Proof.
  destruct (publisher_contract (H := runtime None) (world NoResponse)
              sample_context "chat-jobs" (PDict {[ "message" := PStr "hello" ]}))
    as (_ & _ & _ & Hreturns & Hno_fault & _).
  apply Hreturns, Hno_fault. reflexivity.
Defined.

(** Without a broker the request dies of pika's error: no HTTP call, and
    a 500 for the client. *)
Lemma publish_failure_is_fatal_witness :
  outcome (ChatService.chat_endpoint (H := runtime (Some short_hello))
             (world_without_broker (Response 200 [])) sample_context hello)
    = Raise (AMQPError AMQPConnectionError) /\
  Forall (fun ev => is_http_post ev = false)
    (trace (ChatService.chat_endpoint (H := runtime (Some short_hello))
              (world_without_broker (Response 200 [])) sample_context hello)) /\
  respond (outcome (ChatService.chat_endpoint (H := runtime (Some short_hello))
                      (world_without_broker (Response 200 []))
                      sample_context hello))
    = (500, PStr "Internal Server Error").
Proof.
  destruct (publish_failure_is_fatal (H := runtime (Some short_hello))
              (world_without_broker (Response 200 [])) sample_context hello)
    as [_ Hfatal].
  destruct (Hfatal (AMQPError AMQPConnectionError) eq_refl)
    as (Hout & _ & Hno_call & Hresp).
  auto.
Defined.

(** Six steps of the generator send the whole body. *)
Lemma chat_stream_emits_five_chunks_witness :
  exists response,
    outcome ChatService.chat_stream = Ok response /\
    ChatService.media_type response = "text/plain" /\
    ChatService.send_body 6 (ChatService.body_iterator response) = Some
      [ Log INFO "stream_chunk_emitted index=%d";
        Yield (str_encode ("chunk-0" +:+ ChatService.newline)); Sleep 0.5%float;
        Log INFO "stream_chunk_emitted index=%d";
        Yield (str_encode ("chunk-1" +:+ ChatService.newline)); Sleep 0.5%float;
        Log INFO "stream_chunk_emitted index=%d";
        Yield (str_encode ("chunk-2" +:+ ChatService.newline)); Sleep 0.5%float;
        Log INFO "stream_chunk_emitted index=%d";
        Yield (str_encode ("chunk-3" +:+ ChatService.newline)); Sleep 0.5%float;
        Log INFO "stream_chunk_emitted index=%d";
        Yield (str_encode ("chunk-4" +:+ ChatService.newline)); Sleep 0.5%float ] /\
    ChatService.stream_generator (ChatService.Suspended 4)
      = ([Sleep 0.5%float], None, ChatService.Finished).
Proof. apply (chat_stream_emits_five_chunks 6). lia. Defined.

(** An analysis without a length is short; one whose length is the text
    [abc] makes the endpoint raise [ValueError], a 500 for the client. *)
Lemma length_default_witness :
  outcome (NlpService.classify_endpoint (H := runtime (Some (PDict ∅)))
             (world (Response 200 [])) {| NlpService.text := "hello" |})
    = Ok (PDict {[ "classification" := PStr "short";
                   "analysis" := PDict ∅ ]}) /\
  respond (outcome (NlpService.classify_endpoint
                      (H := runtime (Some (PDict {[ "length" := PStr "abc" ]})))
                      (world (Response 200 [])) {| NlpService.text := "hello" |}))
    = (500, PStr "Internal Server Error").
Proof.
  split.
  - destruct (length_default (H := runtime (Some (PDict ∅)))
                (world (Response 200 [])) {| NlpService.text := "hello" |}
                (PDict ∅) ltac:(vm_compute; reflexivity)) as [Hdefault _].
    apply (Hdefault ∅); vm_compute; reflexivity.
  - destruct (length_default
                (H := runtime (Some (PDict {[ "length" := PStr "abc" ]})))
                (world (Response 200 [])) {| NlpService.text := "hello" |}
                (PDict {[ "length" := PStr "abc" ]})
                ltac:(vm_compute; reflexivity)) as [_ Hraise].
    apply (Hraise (PStr "abc") ValueError); vm_compute; reflexivity.
Defined.

(** A 503 of the classification service is the [HTTPStatusError] behind
    the 502; a 200 whose body does not decode ends in a 500. *)
Lemma nlp_unavailable_only_if_witness :
  (exists e,
     outcome (ChatService.classify_call (H := runtime None)
                (world (Response 503 [])) "http://localhost:8001" hello)
       = Raise e /\
     is_HTTPError e = true) /\
  respond (outcome (ChatService.chat_endpoint (H := runtime None)
                      (world (Response 200 [])) sample_context hello))
    = (500, PStr "Internal Server Error").
Proof.
  destruct (nlp_unavailable_only_if (H := runtime None)
              (world (Response 503 [])) sample_context hello) as [Honly _].
  destruct (nlp_unavailable_only_if (H := runtime None)
              (world (Response 200 [])) sample_context hello) as [_ Hdecode].
  split.
  - destruct (Honly eq_refl) as (e & He & Hhttp & _). eauto.
  - apply (Hdecode 200 []); [reflexivity | reflexivity | lia | reflexivity].
Defined.

(** A delivery without headers whose analysis succeeds is acknowledged. *)
Lemma on_message_settles_witness :
  let t := trace (Worker.on_message (H := runtime (Some (PDict ∅)))
                    (world (Response 200 [])) "chat-jobs"
                    "http://localhost:8080" {| Worker.delivery_tag := 1 |}
                    {| content_type := None; delivery_mode := None;
                       headers := None |}
                    (str_encode "{}")) in
  (count is_ack t = 1%nat /\ count is_nack t = 0%nat) \/
  (count is_ack t = 0%nat /\ count is_nack t = 1%nat /\
   Amqp (basic_nack 1 false) ∈ t).
Proof.
  apply (on_message_settles (H := runtime (Some (PDict ∅)))
           (world (Response 200 [])) "chat-jobs" "http://localhost:8080"
           {| Worker.delivery_tag := 1 |}
           {| content_type := None; delivery_mode := None; headers := None |}
           (str_encode "{}") ∅); reflexivity.
Defined.

(** A table with the key [b"k"] and the value [b"\xff"] normalizes. *)
Lemma normalize_headers_total_witness :
  exists d,
    Worker._normalize_headers (H := runtime None)
      (Some [(HBytes [x6b], HBytes [xff])]) = Ok d.
Proof.
  apply (normalize_headers_total (H := runtime None)
           (Some [(HBytes [x6b], HBytes [xff])])).
  repeat constructor. intros b [= <-]. exists "k". reflexivity.
Defined.

(** One poisoned delivery stops a worker whose broker is healthy. *)
Lemma main_stops_on_undecodable_key_witness :
  let run := Worker.main (H := runtime (Some (PDict ∅)))
               (world (Response 200 []))
               [ ({| Worker.delivery_tag := 1 |},
                  {| content_type := None; delivery_mode := None;
                     headers := Some [(HBytes [xff], HStr "x")] |},
                  str_encode "{}");
                 ({| Worker.delivery_tag := 2 |},
                  {| content_type := None; delivery_mode := None;
                     headers := None |},
                  str_encode "{}") ] in
  outcome run = Raise UnicodeDecodeError /\
  count is_ack (trace run) = 0%nat /\
  count is_nack (trace run) = 0%nat /\
  last (trace run) = Some (Amqp connection_close).
Proof.
  apply (main_stops_on_undecodable_key (H := runtime (Some (PDict ∅)))
           (world (Response 200 [])) {| Worker.delivery_tag := 1 |}
           (HStr "x") (str_encode "{}")).
  reflexivity.
Defined.

End scenarios.

(** * More properties of the code *)

(** ** Header normalization *)

Section normalization.
Context `{Runtime}.
Import Worker.

#[local] Arguments utf8_seq_len : simpl never.

Lemma bytes_decode_raises mode b e :
  bytes_decode mode b = Raise e -> e = UnicodeDecodeError.
Proof.
  unfold bytes_decode. destruct (decode_from mode 0 b) eqn:E; simpl; [done|].
  intros [= <-]. by apply (decode_from_raises _ _ _ _ E).
Qed.

(** What a strict decoding accepts, the lenient one decodes alike. *)
Lemma decode_from_strict_ignore skip l r :
  decode_from strict skip l = Ok r -> decode_from ignore skip l = Ok r.
Proof.
  revert skip r. induction l as [|b l IH]; intros skip r; simpl; [done|].
  destruct skip as [|k].
  - destruct (utf8_seq_len (b :: l)) as [|k]; [done|].
    destruct (decode_from strict k l) as [r'|] eqn:E; simpl; [|done].
    by rewrite (IH _ _ E).
  - destruct (decode_from strict k l) as [r'|] eqn:E; simpl; [|done].
    by rewrite (IH _ _ E).
Qed.

Lemma bytes_decode_strict_ignore b s :
  bytes_decode strict b = Ok s -> bytes_decode ignore b = Ok s.
Proof.
  unfold bytes_decode.
  destruct (decode_from strict 0 b) as [r|] eqn:E; simpl; [|done].
  by rewrite (decode_from_strict_ignore _ _ _ E).
Qed.

Lemma normalize_value_total v : exists val, normalize_value v = Ok val.
Proof.
  destruct v as [s|b|x]; simpl; eauto. apply bytes_decode_ignore_total.
Qed.

(** One turn of the loop. *)
Lemma normalize_items_cons k v rest normalized :
  normalize_items ((k, v) :: rest) normalized =
    key ← normalize_key k;
    val ← normalize_value v;
    normalize_items rest (<[key := val]> normalized).
Proof.
  simpl. destruct k as [s|b|x]; simpl.
  - by destruct v.
  - destruct (bytes_decode strict b); simpl; [|done]. by destruct v.
  - by destruct v.
Qed.

(** The loop over a table in two parts. *)
Lemma normalize_items_app items1 items2 normalized :
  normalize_items (items1 ++ items2) normalized =
    normalized' ← normalize_items items1 normalized;
    normalize_items items2 normalized'.
Proof.
  revert normalized. induction items1 as [|[k v] items1 IH]; intros normalized.
  - done.
  - rewrite <- app_comm_cons, !normalize_items_cons.
    destruct (normalize_key k) as [key|]; simpl; [|done].
    destruct (normalize_value v) as [val|]; simpl; [|done].
    apply IH.
Qed.

Lemma normalize_headers_items items :
  _normalize_headers (Some items) = normalize_items items ∅.
Proof. by destruct items. Qed.

Lemma normalize_items_raises items normalized :
  (exists e, normalize_items items normalized = Raise e) <->
  Exists (fun kv => exists b, fst kv = HBytes b /\
            bytes_decode strict b = Raise UnicodeDecodeError) items.
Proof.
  revert normalized. induction items as [|[k v] items IH]; intros normalized.
  - split; [by intros [e [=]]|by intros ?%Exists_nil].
  - rewrite normalize_items_cons, Exists_cons.
    destruct (normalize_key k) as [key|e] eqn:Hk; simpl.
    + destruct (normalize_value_total v) as [val ->]. simpl.
      rewrite IH. split; [tauto|]. intros [(b & Hb & Hraise)|]; [|done].
      simpl in Hb. subst k. simpl in Hk. congruence.
    + split; [|eauto]. intros _. left.
      destruct k as [s|b|x]; simpl in Hk; try discriminate.
      exists b. split; [done|].
      by rewrite Hk, (bytes_decode_raises _ _ _ Hk).
Qed.

Lemma normalize_headers_raised headers e :
  _normalize_headers headers = Raise e -> e = UnicodeDecodeError.
Proof.
  destruct headers as [items|]; [|done].
  rewrite normalize_headers_items.
  generalize (∅ : gmap string string).
  induction items as [|[k v] items IH]; intros normalized; [done|].
  rewrite normalize_items_cons.
  destruct (normalize_key k) as [key|e'] eqn:Hk; simpl.
  - destruct (normalize_value_total v) as [val ->]. simpl. apply IH.
  - intros [= <-]. destruct k as [s|b|x]; simpl in Hk; try discriminate.
    by apply (bytes_decode_raises _ _ _ Hk).
Qed.

(** X1. [_normalize_headers] raises exactly when the table has a [bytes]
    key that is not UTF-8, and then it raises [UnicodeDecodeError]: no
    value, and no key of another type, makes it fail. *)
Theorem normalize_headers_raises_iff headers :
  ((exists e, _normalize_headers headers = Raise e) <->
   exists b v, (HBytes b, v) ∈ default [] headers /\
     bytes_decode strict b = Raise UnicodeDecodeError) /\
  (forall e, _normalize_headers headers = Raise e -> e = UnicodeDecodeError).
Proof.
  assert (Hiff : (exists e, _normalize_headers headers = Raise e) <->
            exists b v, (HBytes b, v) ∈ default [] headers /\
              bytes_decode strict b = Raise UnicodeDecodeError).
  { destruct headers as [items|]; cbn [default from_option id].
    - rewrite normalize_headers_items, normalize_items_raises, Exists_exists.
      split.
      + intros ([k v] & Hin & b & Hk & Hb). simpl in Hk. subst k.
        exists b, v. done.
      + intros (b & v & Hin & Hb). exists (HBytes b, v).
        split; [done|eauto].
    - split; [by intros [e [=]]|]. by intros (b & v & ?%elem_of_nil & _). }
  split; [done|]. apply normalize_headers_raised.
Qed.

Lemma holds_key s h : holds s h -> normalize_key h = Ok s.
Proof. by intros [|Htext]. Qed.

Lemma holds_value s h : holds s h -> normalize_value h = Ok s.
Proof. intros [|Htext]; [done|]. by apply bytes_decode_strict_ignore. Qed.

Lemma normalize_items_held (l : list (string * string)) items
    (acc : gmap string string) :
  Forall2 (fun kv item => holds (fst kv) (fst item) /\ holds (snd kv) (snd item))
    l items ->
  NoDup l.*1 ->
  normalize_items items acc = Ok (list_to_map l ∪ acc).
Proof.
  intros Hheld. revert acc.
  induction Hheld as [|[k v] [hk hv] l items [Hk Hv] _ IH]; intros acc Hnd.
  - simpl. by rewrite (left_id_L ∅ (∪)).
  - inversion Hnd as [|? ? Hnotin Hl]; subst.
    rewrite normalize_items_cons. simpl in Hk, Hv.
    rewrite (holds_key _ _ Hk), (holds_value _ _ Hv). simpl.
    rewrite IH by done. f_equal.
    rewrite <- insert_union_l. symmetry.
    apply insert_union_r. by apply not_elem_of_list_to_map_1.
Qed.

(** X2. Round trip of a carrier through a header table: however the
    entries of the dictionary [d] are held by the table, each key and each
    value as a [str] or as the [bytes] of its UTF-8 encoding,
    [_normalize_headers] gives [d] back. *)
Theorem normalize_headers_round_trip (d : gmap string string) items :
  Forall2 (fun kv item => holds (fst kv) (fst item) /\ holds (snd kv) (snd item))
    (map_to_list d) items ->
  _normalize_headers (Some items) = Ok d.
Proof.
  intros Hheld.
  rewrite normalize_headers_items,
    (normalize_items_held _ _ _ Hheld) by apply NoDup_fst_map_to_list.
  by rewrite list_to_map_to_list, (right_id_L ∅ (∪)).
Qed.

(** X3. The entries are stored in the order of the table, a later one
    over an earlier one: the table [items] with one more entry [(k, v)]
    normalizes, if it does, to the dictionary of [items] with the
    normalized value of [v] inserted at the normalized key of [k]. *)
Theorem normalize_headers_last_wins items k v d :
  _normalize_headers (Some (items ++ [(k, v)])) = Ok d ->
  exists d' key val,
    _normalize_headers (Some items) = Ok d' /\
    normalize_key k = Ok key /\
    normalize_value v = Ok val /\
    d = <[key := val]> d' /\
    d !! key = Some val.
Proof.
  rewrite !normalize_headers_items, normalize_items_app.
  destruct (normalize_items items ∅) as [d'|]; [|done].
  cbn [mbind result_bind]. rewrite normalize_items_cons.
  destruct (normalize_key k) as [key|]; [|done].
  destruct (normalize_value v) as [val|]; [|done].
  cbn [mbind result_bind normalize_items].
  intros [= <-]. exists d', key, val. by rewrite lookup_insert_eq.
Qed.

End normalization.

(** ** The callback of the worker *)

Section callback.
Context `{Runtime}.
Import Worker.

Lemma message_of_raises body e :
  message_of body = Raise e -> is_Exception e = true.
Proof.
  unfold message_of.
  destruct (bytes_decode strict body) as [decoded|e'] eqn:Hdecode; simpl;
    [|intros [= <-]; by apply (is_Exception_decode _ _ _ Hdecode)].
  destruct (json_loads decoded) as [payload|]; simpl; [|by intros [= <-]].
  destruct (py_get payload "message" (PStr "")) as [message|e'] eqn:Hget; simpl;
    [|intros [= <-]; by apply (is_Exception_get _ _ _ _ Hget)].
  destruct (py_len message) as [n|e'] eqn:Hlen; simpl; [done|].
  intros [= <-]. by apply (is_Exception_len _ _ Hlen).
Qed.

(** The call of [/analyze], by what the server answers. *)
Lemma analyze_run w url message :
  analyze w url message =
    let post := HttpPost url 5%float "/analyze" (PDict {[ "text" := message ]}) in
    match http_server w url "/analyze" (PDict {[ "text" := message ]}) with
    | NoResponse => (Raise TransportError, [post])
    | Response s c =>
      if (200 <=? s) && (s <=? 299)
      then (of_option JSONDecodeError (response_json c), [post])
      else (Raise (HTTPStatusError s), [post])
    end.
Proof.
  unfold analyze, client_post, raise_for_status, resp_json, is_success.
  simpl. destruct (http_server _ _ _ _) as [|s c]; simpl; [done|].
  destruct ((200 <=? s) && (s <=? 299)); simpl; [|done].
  by destruct (response_json c).
Qed.

Lemma analyze_raises w url message e :
  outcome (analyze w url message) = Raise e -> is_Exception e = true.
Proof.
  rewrite analyze_run. cbv zeta.
  destruct (http_server _ _ _ _) as [|s c]; simpl; [by intros [= <-]|].
  destruct ((200 <=? s) && (s <=? 299)); simpl; [|by intros [= <-]].
  destruct (response_json c); simpl; [done|by intros [= <-]].
Qed.

Lemma analyze_trace w url message :
  trace (analyze w url message)
    = [HttpPost url 5%float "/analyze" (PDict {[ "text" := message ]})].
Proof.
  rewrite analyze_run. cbv zeta.
  destruct (http_server _ _ _ _) as [|s c]; simpl; [done|].
  by destruct ((200 <=? s) && (s <=? 299)).
Qed.

(** The [try] statement of [on_message], by how far its block gets. *)
Lemma process_run w url method body :
  process w url method body =
    match message_of body with
    | Raise _ => rejected w method []
    | Ok message =>
      let post := HttpPost url 5%float "/analyze"
                    (PDict {[ "text" := message ]}) in
      match outcome (analyze w url message) with
      | Raise _ =>
        rejected w method [Log INFO "Processing message length=%d"; post]
      | Ok _ =>
        let acked := [Log INFO "Processing message length=%d"; post;
                      Log INFO "Analyze result: %s";
                      Amqp (basic_ack (delivery_tag method))] in
        match amqp_fault w (basic_ack (delivery_tag method)) with
        | None => (Ok tt, acked)
        | Some _ => rejected w method acked
        end
      end
    end.
Proof.
  pose proof (message_of_raises body) as Hmsg.
  unfold process, message_of in *. unfold rejected.
  destruct (bytes_decode strict body) as [decoded|e]; simpl in *;
    [|unfold try_except; simpl; by rewrite (Hmsg _ eq_refl)].
  destruct (json_loads decoded) as [payload|]; simpl in *; [|done].
  destruct (py_get payload "message" (PStr "")) as [message|e]; simpl in *;
    [|unfold try_except; simpl; by rewrite (Hmsg _ eq_refl)].
  destruct (py_len message) as [n|e]; simpl in *;
    [|unfold try_except; simpl; by rewrite (Hmsg _ eq_refl)].
  clear Hmsg. pose proof (analyze_raises w url message) as Hcall.
  rewrite analyze_run in *. cbv zeta in *.
  unfold client_post, raise_for_status, resp_json, is_success, amqp. simpl.
  destruct (http_server _ _ _ _) as [|s c]; simpl in *; [done|].
  destruct ((200 <=? s) && (s <=? 299)); simpl in *; [|done].
  destruct (response_json c); simpl in *; [|done].
  by destruct (amqp_fault w (basic_ack (delivery_tag method))).
Qed.

(** What [on_message] adds around the [try] statement settles nothing and
    calls no server. *)
Lemma on_message_observed w queue_name dotnet_url method properties body carrier :
  _normalize_headers (headers properties) = Ok carrier ->
  let run := on_message w queue_name dotnet_url method properties body in
  outcome run = outcome (process w dotnet_url method body) /\
  settlements (trace run) = settlements (trace (process w dotnet_url method body)) /\
  http_calls (trace run) = http_calls (trace (process w dotnet_url method body)) /\
  (forall c, Amqp c ∈ trace run <->
             Amqp c ∈ trace (process w dotnet_url method body)).
Proof.
  intros Hnorm run. unfold run. rewrite on_message_run, Hnorm. cbv zeta.
  generalize (process w dotnet_url method body). intros [r t].
  unfold outcome, trace, settlements, http_calls. simpl.
  split; [done|]. split; [|split].
  - rewrite omap_app. simpl. by rewrite app_nil_r.
  - rewrite List.filter_app. simpl. by rewrite app_nil_r.
  - intros c. rewrite !elem_of_cons, elem_of_app, !elem_of_cons, elem_of_nil.
    split; [|tauto]. intros [?|[?|[?|[?|[?|[?|[]]]]]]]; done.
Qed.

(** X4. Whatever the body and whatever the server answers, a delivery
    whose headers normalize is settled exactly once, under its own tag, as
    long as the acknowledgement itself goes through. *)
Theorem on_message_settles_once w queue_name dotnet_url method properties body
    carrier :
  _normalize_headers (headers properties) = Ok carrier ->
  amqp_fault w (basic_ack (delivery_tag method)) = None ->
  settlements (trace (on_message w queue_name dotnet_url method properties body))
    = [delivery_tag method].
Proof.
  intros Hnorm Hack.
  destruct (on_message_observed w queue_name dotnet_url method properties body
              carrier Hnorm) as (_ & -> & _).
  rewrite process_run, Hack. unfold rejected.
  destruct (message_of body) as [message|]; [|done].
  by destruct (outcome (analyze w dotnet_url message)).
Qed.

(** X5. The callback makes no AMQP call but the ack and the nack of its own
    delivery, and the nack never asks for a requeue. *)
Theorem on_message_never_requeues w queue_name dotnet_url method properties
    body c :
  Amqp c ∈ trace (on_message w queue_name dotnet_url method properties body) ->
  c = basic_ack (delivery_tag method) \/
  c = basic_nack (delivery_tag method) false.
Proof.
  destruct (_normalize_headers (headers properties)) as [carrier|e] eqn:Hnorm.
  - destruct (on_message_observed w queue_name dotnet_url method properties
                body carrier Hnorm) as (_ & _ & _ & ->).
    rewrite process_run. unfold rejected.
    destruct (message_of body) as [message|];
      [|cbn [trace snd app]; rewrite !elem_of_cons, elem_of_nil;
        intros [Hin|[Hin|[]]]; try discriminate; injection Hin as ->; auto].
    destruct (outcome (analyze w dotnet_url message));
      [destruct (amqp_fault w (basic_ack (delivery_tag method)))|];
      cbn [trace snd app]; rewrite !elem_of_cons, elem_of_nil;
      intros Hin; repeat (destruct Hin as [Hin|Hin]); try discriminate;
      try (injection Hin as ->); auto; done.
  - rewrite on_message_run, Hnorm. by intros ?%elem_of_nil.
Qed.

(** X6. A delivery whose headers normalize is acknowledged exactly when a
    message could be taken from its body and the call of [/analyze] with
    that message returned a decoded body. *)
Theorem on_message_acks_iff w queue_name dotnet_url method properties body
    carrier :
  _normalize_headers (headers properties) = Ok carrier ->
  Amqp (basic_ack (delivery_tag method))
    ∈ trace (on_message w queue_name dotnet_url method properties body)
  <-> exists message analysis,
        message_of body = Ok message /\
        outcome (analyze w dotnet_url message) = Ok analysis.
Proof.
  intros Hnorm.
  destruct (on_message_observed w queue_name dotnet_url method properties body
              carrier Hnorm) as (_ & _ & _ & ->).
  rewrite process_run. unfold rejected.
  destruct (message_of body) as [message|e].
  - cbv zeta.
    destruct (outcome (analyze w dotnet_url message)) as [analysis|e] eqn:Hcall.
    + split; [eauto|]. intros _.
      destruct (amqp_fault w (basic_ack (delivery_tag method)));
        cbn [trace snd app]; rewrite !elem_of_cons; tauto.
    + split; [|intros (? & ? & [= <-] & ?); congruence].
      cbn [trace snd app]. rewrite !elem_of_cons, elem_of_nil.
      intros Hin; repeat (destruct Hin as [Hin|Hin]); done.
  - split; [|by intros (? & ? & [=] & _)].
    cbn [trace snd app]. rewrite !elem_of_cons, elem_of_nil.
    intros Hin; repeat (destruct Hin as [Hin|Hin]); done.
Qed.

(** X7. A body from which no message can be taken (bytes that are not
    UTF-8, a text that is not JSON, a document that is not an object, a
    [message] that has no [len]) is rejected without any call of
    [/analyze]. *)
Theorem on_message_rejects_without_analysis w queue_name dotnet_url method
    properties body carrier e :
  _normalize_headers (headers properties) = Ok carrier ->
  message_of body = Raise e ->
  let t := trace (on_message w queue_name dotnet_url method properties body) in
  http_calls t = [] /\
  Amqp (basic_nack (delivery_tag method) false) ∈ t /\
  Amqp (basic_ack (delivery_tag method)) ∉ t.
Proof.
  intros Hnorm Hmsg t. subst t.
  destruct (on_message_observed w queue_name dotnet_url method properties body
              carrier Hnorm) as (_ & _ & -> & Hamqp).
  rewrite !Hamqp, process_run, Hmsg. unfold rejected.
  cbn [trace snd app http_calls List.filter is_http_post].
  rewrite !elem_of_cons, !elem_of_nil.
  split; [done|]. split; [tauto|].
  intros Hin; repeat (destruct Hin as [Hin|Hin]); done.
Qed.

(** X9. The callback lets no error of the processing out: when the headers
    normalize and the nack goes through, it returns, whatever the body,
    the server and the ack do. *)
Theorem on_message_returns w queue_name dotnet_url method properties body
    carrier :
  _normalize_headers (headers properties) = Ok carrier ->
  amqp_fault w (basic_nack (delivery_tag method) false) = None ->
  outcome (on_message w queue_name dotnet_url method properties body) = Ok tt.
Proof.
  intros Hnorm Hnack.
  destruct (on_message_observed w queue_name dotnet_url method properties body
              carrier Hnorm) as (-> & _).
  rewrite process_run. unfold rejected. rewrite Hnack.
  destruct (message_of body) as [message|]; [|done].
  destruct (outcome (analyze w dotnet_url message)); [|done].
  by destruct (amqp_fault w (basic_ack (delivery_tag method))).
Qed.

(** X10. No retry: a delivery leads to at most one HTTP call, and that
    call posts [{text: message}] to [/analyze] of the configured service
    with the timeout 5. *)
Theorem on_message_calls_analyze_at_most_once w queue_name dotnet_url method
    properties body :
  let calls := http_calls (trace (on_message w queue_name dotnet_url method
                                    properties body)) in
  calls = [] \/
  exists message,
    message_of body = Ok message /\
    calls = [HttpPost dotnet_url 5%float "/analyze"
               (PDict {[ "text" := message ]})].
Proof.
  intros calls. subst calls.
  destruct (_normalize_headers (headers properties)) as [carrier|e] eqn:Hnorm.
  - destruct (on_message_observed w queue_name dotnet_url method properties
                body carrier Hnorm) as (_ & _ & -> & _).
    rewrite process_run. unfold rejected.
    destruct (message_of body) as [message|]; [|by left].
    right. exists message. split; [done|].
    destruct (outcome (analyze w dotnet_url message));
      [destruct (amqp_fault w (basic_ack (delivery_tag method)))|]; done.
  - left. by rewrite on_message_run, Hnorm.
Qed.

End callback.

Section callback_message.
Context `{Runtime}.
Import Worker.

(** X8. The text sent to [/analyze] is the [message] field of the JSON
    object in the body, and the empty string when the object has no such
    field; a [message] that is a number, a boolean or null has no [len],
    so that the delivery is rejected before any call. *)
Theorem on_message_message_field w queue_name dotnet_url method properties body
    carrier decoded d :
  _normalize_headers (headers properties) = Ok carrier ->
  bytes_decode strict body = Ok decoded ->
  json_loads decoded = Some (PDict d) ->
  let t := trace (on_message w queue_name dotnet_url method properties body) in
  let post message :=
    HttpPost dotnet_url 5%float "/analyze" (PDict {[ "text" := message ]}) in
  match d !! "message" with
  | None => http_calls t = [post (PStr "")]
  | Some (PStr _ as message) | Some (PList _ as message)
  | Some (PDict _ as message) => http_calls t = [post message]
  | Some _ =>
    http_calls t = [] /\ Amqp (basic_nack (delivery_tag method) false) ∈ t
  end.
Proof.
  intros Hnorm Hdecode Hjson t post. subst t post.
  destruct (on_message_observed w queue_name dotnet_url method properties body
              carrier Hnorm) as (_ & _ & Hcalls & Hamqp).
  pose proof (process_run w dotnet_url method body) as Hrun.
  unfold message_of, rejected in Hrun.
  rewrite Hdecode in Hrun. simpl in Hrun. rewrite Hjson in Hrun. simpl in Hrun.
  destruct (d !! "message") as [[|b|z|f|s|l|d']|]; simpl in Hrun;
    rewrite ?Hamqp, Hcalls, Hrun;
    try (split; [done|]; cbn [trace snd app]; rewrite !elem_of_cons; tauto);
    destruct (outcome (analyze _ _ _));
    try destruct (amqp_fault w (basic_ack (delivery_tag method))); done.
Qed.

End callback_message.

(** ** The worker's main loop *)

Section consuming.
Context `{Runtime}.
Import Worker.

(** A delivery whose headers normalize, under a broker that accepts its
    settlement, is settled and lets the loop go on. *)
Lemma on_message_handled w queue_name dotnet_url method properties body :
  (forall c, amqp_fault w c = None) ->
  normalizes (method, properties, body) ->
  outcome (on_message w queue_name dotnet_url method properties body) = Ok tt /\
  settlements (trace (on_message w queue_name dotnet_url method properties body))
    = [delivery_tag method].
Proof.
  intros Hw [carrier Hnorm]. simpl in Hnorm.
  destruct (on_message_observed w queue_name dotnet_url method properties body
              carrier Hnorm) as (-> & -> & _).
  rewrite process_run. unfold rejected. rewrite !Hw.
  destruct (message_of body) as [message|]; [|done].
  by destruct (outcome (analyze w dotnet_url message)).
Qed.

Lemma settlements_app t1 t2 :
  settlements (t1 ++ t2) = settlements t1 ++ settlements t2.
Proof. apply omap_app. Qed.

(** The loop over deliveries that are handled, up to a callback that
    raises or to the interrupt. *)
Lemma start_consuming_app w queue_name dotnet_url good rest :
  (forall c, amqp_fault w c = None) ->
  Forall normalizes good ->
  let run := start_consuming w queue_name dotnet_url (good ++ rest) in
  let tail := start_consuming w queue_name dotnet_url rest in
  outcome run = outcome tail /\
  settlements (trace run)
    = ((fun d : delivery => delivery_tag (fst (fst d))) <$> good)
        ++ settlements (trace tail).
Proof.
  intros Hw Hgood. induction Hgood as [|[[method properties] body] good Hd _ IH].
  - done.
  - cbv zeta in *. rewrite <- app_comm_cons. cbn [start_consuming].
    destruct (on_message_handled w queue_name dotnet_url method properties body
                Hw Hd) as [Hout Hset].
    rewrite (bind_ok _ _ _ Hout). destruct IH as [IHout IHset].
    unfold outcome, trace in *. cbn [fst snd] in *. split; [done|].
    by rewrite settlements_app, Hset, IHset.
Qed.

(** [main] under a broker that accepts every call. *)
Lemma main_run w deliveries :
  (forall c, amqp_fault w c = None) ->
  main w deliveries =
    let run := start_consuming w (getenv w "RABBITMQ_QUEUE" "chat-jobs")
                 (getenv w "DOTNET_SERVICE_URL" "http://localhost:8080")
                 deliveries in
    let closing := [Amqp channel_close; Amqp connection_close] in
    let opening :=
      Log INFO "Worker connecting to RabbitMQ host=%s queue=%s"
      :: (Amqp <$> setup_calls w) ++ [Log INFO "Worker started consuming"] in
    match outcome run with
    | Raise KeyboardInterrupt =>
      (Ok tt,
       opening ++ trace run
         ++ Log INFO "Worker interrupted, closing connection..." :: closing)
    | other => (other, opening ++ trace run ++ closing)
    end.
Proof.
  intros Hw. unfold main, amqp, try_finally, try_except, log, emit.
  rewrite !Hw. cbv zeta.
  generalize (start_consuming w (getenv w "RABBITMQ_QUEUE" "chat-jobs")
                (getenv w "DOTNET_SERVICE_URL" "http://localhost:8080")
                deliveries).
  intros [[[]|e] t]; simpl; [done|].
  destruct e; simpl; try done. by rewrite <- !app_assoc.
Qed.

(** X11. With a broker that accepts every call and deliveries whose
    headers all normalize, the worker settles each delivery once, under
    its tag and in the order of arrival; when it is interrupted it closes
    the channel and the connection, and [main] returns. *)
Theorem main_settles_in_order w deliveries :
  (forall c, amqp_fault w c = None) ->
  Forall normalizes deliveries ->
  let run := main w deliveries in
  outcome run = Ok tt /\
  settlements (trace run)
    = (fun d : delivery => delivery_tag (fst (fst d))) <$> deliveries /\
  exists t, trace run
    = t ++ [Log INFO "Worker interrupted, closing connection...";
            Amqp channel_close; Amqp connection_close].
Proof.
  intros Hw Hgood run. unfold run. rewrite (main_run _ _ Hw). cbv zeta.
  destruct (start_consuming_app w (getenv w "RABBITMQ_QUEUE" "chat-jobs")
              (getenv w "DOTNET_SERVICE_URL" "http://localhost:8080")
              deliveries [] Hw Hgood) as [Hout Hset].
  rewrite app_nil_r in Hout, Hset. cbn [start_consuming] in Hout, Hset.
  rewrite Hout. unfold raise, outcome, trace. cbn [fst snd].
  split; [done|]. split.
  - rewrite app_comm_cons, !settlements_app. unfold trace in Hset.
    rewrite Hset. cbn [snd raise]. simpl. by rewrite !app_nil_r.
  - eexists. rewrite app_assoc. reflexivity.
Qed.

(** X12. With a broker that accepts every call, the first delivery whose
    headers do not normalize stops the worker: [main] raises the error of
    the normalization after closing the channel and the connection, the
    deliveries before that one are settled in order, and neither that one
    nor any later one is. *)
Theorem main_stops_at_first_undecodable_key w good method properties body rest e :
  (forall c, amqp_fault w c = None) ->
  Forall normalizes good ->
  _normalize_headers (headers properties) = Raise e ->
  let run := main w (good ++ (method, properties, body) :: rest) in
  outcome run = Raise UnicodeDecodeError /\
  settlements (trace run)
    = (fun d : delivery => delivery_tag (fst (fst d))) <$> good /\
  exists t, trace run = t ++ [Amqp channel_close; Amqp connection_close].
Proof.
  intros Hw Hgood Hbad run. unfold run. rewrite (main_run _ _ Hw). cbv zeta.
  destruct (start_consuming_app w (getenv w "RABBITMQ_QUEUE" "chat-jobs")
              (getenv w "DOTNET_SERVICE_URL" "http://localhost:8080")
              good ((method, properties, body) :: rest) Hw Hgood)
    as [Hout Hset].
  cbn [start_consuming] in Hout, Hset.
  rewrite on_message_run, Hbad in Hout, Hset.
  assert (e = UnicodeDecodeError) as -> by apply (normalize_headers_raised _ _ Hbad).
  cbn in Hout, Hset. rewrite app_nil_r in Hset.
  rewrite Hout. cbv beta iota. unfold outcome, trace in *. cbn [fst snd] in *.
  split; [done|]. split.
  - rewrite app_comm_cons, !settlements_app, Hset. simpl.
    by rewrite !app_nil_r.
  - eexists. rewrite app_assoc. reflexivity.
Qed.

End consuming.

Section worker_setup.
Context `{Runtime}.
Import Worker.

(** X13. A failure while the worker sets up (connecting, opening the
    channel, declaring the queue, setting the prefetch, registering the
    consumer) is raised by [main] at once: the calls after the failing one
    are not made, no delivery is consumed, and, the [try] being entered
    only afterwards, neither the channel nor the connection is closed. *)
Theorem main_setup_failure w deliveries k c e :
  setup_calls w !! k = Some c ->
  amqp_fault w c = Some e ->
  (forall c', c' ∈ take k (setup_calls w) -> amqp_fault w c' = None) ->
  main w deliveries =
    (Raise (AMQPError e),
     Log INFO "Worker connecting to RabbitMQ host=%s queue=%s"
     :: (Amqp <$> take (S k) (setup_calls w))) /\
  (Amqp channel_close ∉ trace (main w deliveries)) /\
  (Amqp connection_close ∉ trace (main w deliveries)).
Proof.
  intros Hk Hc Hbefore.
  assert (Hrun : main w deliveries =
            (Raise (AMQPError e),
             Log INFO "Worker connecting to RabbitMQ host=%s queue=%s"
             :: (Amqp <$> take (S k) (setup_calls w)))).
  { assert (Hnone : Forall (fun c' => amqp_fault w c' = None)
                      (take k (setup_calls w))) by by apply Forall_forall.
    unfold setup_calls in *.
    do 5 (destruct k as [|k];
          [injection Hk as <-; simpl in Hnone;
           rewrite ?Forall_cons in Hnone; decompose [and] Hnone;
           unfold main, amqp;
           repeat match goal with
                  | Hx : amqp_fault w _ = _ |- _ => rewrite Hx; clear Hx
                  end;
           reflexivity|]).
    discriminate. }
  rewrite Hrun. split; [done|].
  unfold trace, setup_calls. cbn [snd].
  assert (Hin : forall c', Amqp c' ∈ Log INFO "Worker connecting to RabbitMQ host=%s queue=%s"
              :: (Amqp <$> take (S k) (setup_calls w)) -> c' ∈ setup_calls w).
  { intros c' [[=]|Hin]%elem_of_cons.
    apply list_elem_of_fmap in Hin as (c'' & [= ->] & Hin).
    by apply (subseteq_take (S k)). }
  split; intros Hclose%Hin; unfold setup_calls in Hclose;
    rewrite !elem_of_cons, elem_of_nil in Hclose;
    repeat (destruct Hclose as [Hclose|Hclose]); done.
Qed.

(** X14. The worker consumes only from a queue that is ready: when [main]
    gets as far as consuming, it has made its five setup calls in order
    and none has failed: the connection, the channel, the declaration of
    the queue as durable, the prefetch count of 10 and the registration of
    the callback. *)
Theorem main_consumes_after_setup w deliveries :
  Log INFO "Worker started consuming" ∈ trace (main w deliveries) ->
  Forall (fun c => amqp_fault w c = None) (setup_calls w) /\
  exists rest,
    trace (main w deliveries)
      = Log INFO "Worker connecting to RabbitMQ host=%s queue=%s"
        :: (Amqp <$> setup_calls w)
        ++ Log INFO "Worker started consuming" :: rest.
Proof.
  unfold main, setup_calls, amqp, try_finally, try_except, log, emit.
  generalize (start_consuming w (getenv w "RABBITMQ_QUEUE" "chat-jobs")
                (getenv w "DOTNET_SERVICE_URL" "http://localhost:8080")
                deliveries).
  intros run.
  destruct (amqp_fault w (BlockingConnection _)) eqn:E1;
    [cbn; rewrite !elem_of_cons, elem_of_nil; intros [|[|[]]]; done|].
  destruct (amqp_fault w channel) eqn:E2;
    [cbn; rewrite !elem_of_cons, elem_of_nil; intros [|[|[|[]]]]; done|].
  destruct (amqp_fault w (queue_declare _ _)) eqn:E3;
    [cbn; rewrite !elem_of_cons, elem_of_nil; intros [|[|[|[|[]]]]]; done|].
  destruct (amqp_fault w (basic_qos 10)) eqn:E4;
    [cbn; rewrite !elem_of_cons, elem_of_nil;
     intros [|[|[|[|[|[]]]]]]; done|].
  destruct (amqp_fault w (basic_consume _)) eqn:E5;
    [cbn; rewrite !elem_of_cons, elem_of_nil;
     intros [|[|[|[|[|[|[]]]]]]]; done|].
  intros _. split; [by repeat constructor|].
  destruct run as [[[]|e] t]; cbn;
    try destruct (is_KeyboardInterrupt e); cbn;
    destruct (amqp_fault w channel_close);
    try destruct (amqp_fault w connection_close); cbn; eauto.
Qed.

End worker_setup.

Section publisher_failures.
Context `{Runtime}.
Import ChatService.

(** X15. A publish returns exactly when none of its six AMQP calls fails:
    opening the connection, opening the channel, declaring the queue,
    publishing, closing the channel and closing the connection. *)
Theorem publish_returns_iff w ctx queue_name payload :
  outcome (publish_to_rabbitmq w ctx queue_name payload) = Ok tt <->
  Forall (fun c => amqp_fault w c = None)
    (publish_calls w ctx queue_name payload).
Proof.
  unfold publish_to_rabbitmq, _publish_to_rabbitmq_sync, publish_calls,
    amqp, try_finally.
  rewrite or_empty_id. simpl. rewrite !Forall_cons, Forall_nil.
  amqp_cases w; intuition discriminate.
Qed.

(** X16. The [finally] of the publisher: when the connection cannot be
    opened the publish raises that error after this one call; once it is
    open, [connection.close()] is called exactly once, as the last call,
    whatever failed in between, and an error of the close is the one the
    publish raises. *)
Theorem publish_closes_connection w ctx queue_name payload :
  let host := getenv w "RABBITMQ_HOST" "localhost" in
  let run := publish_to_rabbitmq w ctx queue_name payload in
  match amqp_fault w (BlockingConnection host) with
  | Some e => run = (Raise (AMQPError e), [Amqp (BlockingConnection host)])
  | None =>
    exists t,
      trace run = Amqp (BlockingConnection host) :: t
                  ++ [Amqp connection_close] /\
      (Amqp connection_close ∉ t) /\
      (forall e, amqp_fault w connection_close = Some e ->
         outcome run = Raise (AMQPError e))
  end.
Proof.
  intros host run. unfold run, host, publish_to_rabbitmq,
    _publish_to_rabbitmq_sync.
  rewrite or_empty_id.
  match goal with
  | |- context [try_finally ?b _] =>
    set (body := b); assert (Hclose : Amqp connection_close ∉ trace body)
  end.
  { unfold body, amqp, trace. simpl.
    amqp_cases w; rewrite !elem_of_cons, elem_of_nil; intuition discriminate. }
  clearbody body. unfold amqp, try_finally.
  destruct (amqp_fault w (BlockingConnection _)) as [e|]; [reflexivity|].
  exists (trace body).
  split; [|split; [done|]].
  - by destruct (amqp_fault w connection_close), body as [[[]|] t].
  - intros e ->. by destruct body as [[[]|] t].
Qed.

(** X17. The first AMQP call of a publish that fails ends it: the calls
    after it are not made, except for [connection.close()] when the
    connection was open; the publish raises the error of the failed call,
    unless that close fails too, whose error then replaces it. *)
Theorem publish_stops_at_first_failure w ctx queue_name payload k c e :
  publish_calls w ctx queue_name payload !! k = Some c ->
  amqp_fault w c = Some e ->
  (forall c', c' ∈ take k (publish_calls w ctx queue_name payload) ->
     amqp_fault w c' = None) ->
  let run := publish_to_rabbitmq w ctx queue_name payload in
  trace run
    = Amqp <$> (take (S k) (publish_calls w ctx queue_name payload)
                ++ if decide (0 < k < 5)%nat then [connection_close] else []) /\
  (k = 0%nat \/ k = 5%nat \/ amqp_fault w connection_close = None ->
   outcome run = Raise (AMQPError e)) /\
  (forall e', (0 < k < 5)%nat -> amqp_fault w connection_close = Some e' ->
     outcome run = Raise (AMQPError e')).
Proof.
  intros Hk Hc Hbefore run.
  assert (Hnone : Forall (fun c' => amqp_fault w c' = None)
                    (take k (publish_calls w ctx queue_name payload)))
    by by apply Forall_forall.
  clear Hbefore. unfold run, publish_to_rabbitmq, _publish_to_rabbitmq_sync.
  rewrite or_empty_id. unfold publish_calls in *.
  do 6 (destruct k as [|k];
        [injection Hk as <-; simpl in Hnone;
         rewrite ?Forall_cons in Hnone; decompose [and] Hnone;
         unfold amqp, try_finally;
         repeat match goal with
                | Hx : amqp_fault w _ = _ |- _ => rewrite Hx
                end;
         simpl; amqp_cases w;
         (split; [reflexivity|]);
         (split; [try done; intros [?|[?|?]]; (lia || congruence)
                 |intros e' ? ?; (lia || congruence)])|]).
  discriminate.
Qed.

End publisher_failures.

Section gateway_runs.
Context `{Runtime}.
Import ChatService.

(** A publish leaves no event that a filter for another kind keeps. *)
Lemma filter_amqp_only (p : event -> bool) (t : list event) :
  (forall c, p (Amqp c) = false) ->
  Forall (fun ev => is_amqp ev = true) t ->
  List.filter p t = [].
Proof.
  intros Hp. induction 1 as [|[] t Hev _ IH]; simpl; try done.
  by rewrite Hp.
Qed.

(** X18. The three answers of POST /chat: the status is 200, 502 or 500;
    it is 200 exactly when the publish returned and the classification
    service answered a 2xx whose body decodes, and 502 exactly when the
    publish returned and the classification service gave no response or a
    status outside 2xx.  Whatever else happens is a 500. *)
Theorem chat_endpoint_status w ctx req :
  let pub := publish_to_rabbitmq w
               (start_span "publish_to_rabbitmq" PRODUCER ctx)
               (getenv w "RABBITMQ_QUEUE" "chat-jobs")
               (PDict {[ "message" := PStr (message req) ]}) in
  let answer := http_server w (getenv w "NLP_SERVICE_URL" "http://localhost:8001")
                  "/classify" (PDict {[ "text" := PStr (message req) ]}) in
  let status := fst (respond (outcome (chat_endpoint w ctx req))) in
  (status = 200 \/ status = 502 \/ status = 500) /\
  (status = 200 <->
   outcome pub = Ok tt /\
   exists s c v, answer = Response s c /\ 200 <= s <= 299 /\
                 response_json c = Some v) /\
  (status = 502 <->
   outcome pub = Ok tt /\
   (answer = NoResponse \/
    exists s c, answer = Response s c /\ ~ 200 <= s <= 299)).
Proof.
  intros pub answer status. unfold status.
  rewrite chat_endpoint_run. cbv zeta.
  rewrite publish_step_run. cbv zeta. fold pub.
  unfold outcome at 1. simpl fst.
  rewrite call_nlp_service_run. cbv zeta. fold answer.
  destruct (outcome pub) as [[]|e] eqn:Hpub.
  - destruct answer as [|s c]; simpl.
    { split; [tauto|]. split; split; try done.
      - intros (_ & s & c & v & [=] & _).
      - eauto. }
    destruct ((200 <=? s) && (s <=? 299)) eqn:E; simpl.
    + apply in_range_2xx in E.
      destruct (response_json c) as [v|] eqn:Hv; simpl.
      * split; [tauto|]. split; split; try done.
        -- intros _. split; [done|]. by exists s, c, v.
        -- intros (_ & [[=]|(s' & c' & [= <- <-] & Hs)]). tauto.
      * split; [tauto|]. split; split; try done.
        -- intros (_ & s' & c' & v & [= <- <-] & _ & Hv'). congruence.
        -- intros (_ & [[=]|(s' & c' & [= <- <-] & Hs)]). tauto.
    + assert (~ 200 <= s <= 299) by (intros E'%in_range_2xx; congruence).
      split; [tauto|]. split; split; try done.
      * intros (_ & s' & c' & v & [= <- <-] & Hs & _). tauto.
      * intros _. split; [done|]. right. by exists s, c.
  - destruct (publish_raises _ _ _ _ _ Hpub) as [a ->]. simpl.
    split; [tauto|]. split; split; try done; intros [[=] _].
Qed.

(** X19. POST /chat calls the classification service at most once: when
    the publish returned, its one HTTP call is the POST of [{text:
    message}] to [/classify] at [NLP_SERVICE_URL] (by default
    [http://localhost:8001]) with a timeout of 5 seconds, and there is no
    retry whatever the answer; when the publish raised there is none. *)
Theorem chat_endpoint_http_calls w ctx req :
  let pub := publish_to_rabbitmq w
               (start_span "publish_to_rabbitmq" PRODUCER ctx)
               (getenv w "RABBITMQ_QUEUE" "chat-jobs")
               (PDict {[ "message" := PStr (message req) ]}) in
  http_calls (trace (chat_endpoint w ctx req))
    = match outcome pub with
      | Ok _ =>
        [HttpPost (getenv w "NLP_SERVICE_URL" "http://localhost:8001")
           5%float "/classify" (PDict {[ "text" := PStr (message req) ]})]
      | Raise _ => []
      end.
Proof.
  intros pub. rewrite chat_endpoint_run. cbv zeta.
  rewrite publish_step_run, call_nlp_service_run. cbv zeta. fold pub.
  assert (Hpub : http_calls (trace pub) = []).
  { apply filter_amqp_only; [done|apply publish_trace_amqp]. }
  unfold http_calls in *.
  remember (trace pub) as tp eqn:Htp. remember (outcome pub) as op eqn:Hop.
  clear Htp Hop pub. unfold outcome, trace. cbn [fst snd].
  destruct op as [[]|e]; cbn [snd];
    rewrite ?app_comm_cons, !List.filter_app, Hpub; [|done].
  destruct (http_server _ _ _ _) as [|s c]; [done|].
  by destruct ((200 <=? s) && (s <=? 299)).
Qed.

(** X20. The spans of POST /chat: every span that is opened is ended,
    also when its body raises.  The PRODUCER span [publish_to_rabbitmq] is
    opened and ended first; the span [call_nlp_service] follows it, not
    nested in it, and only when the publish returned. *)
Theorem chat_endpoint_spans w ctx req :
  let pub := publish_to_rabbitmq w
               (start_span "publish_to_rabbitmq" PRODUCER ctx)
               (getenv w "RABBITMQ_QUEUE" "chat-jobs")
               (PDict {[ "message" := PStr (message req) ]}) in
  span_events (trace (chat_endpoint w ctx req))
    = [SpanStart "publish_to_rabbitmq" PRODUCER
         (get_span_context (start_span "publish_to_rabbitmq" PRODUCER ctx));
       SpanEnd "publish_to_rabbitmq"]
      ++ match outcome pub with
         | Ok _ =>
           [SpanStart "call_nlp_service" INTERNAL
              (get_span_context (start_span "call_nlp_service" INTERNAL ctx));
            SpanEnd "call_nlp_service"]
         | Raise _ => []
         end.
Proof.
  intros pub. rewrite chat_endpoint_run. cbv zeta.
  rewrite publish_step_run, call_nlp_service_run. cbv zeta. fold pub.
  assert (Hpub : span_events (trace pub) = []).
  { apply filter_amqp_only; [done|apply publish_trace_amqp]. }
  unfold span_events in *.
  remember (trace pub) as tp eqn:Htp. remember (outcome pub) as op eqn:Hop.
  clear Htp Hop pub. unfold outcome, trace. cbn [fst snd].
  destruct op as [[]|e]; cbn [snd];
    rewrite ?app_comm_cons, !List.filter_app, Hpub; [|done].
  destruct (http_server _ _ _ _) as [|s c]; [done|].
  by destruct ((200 <=? s) && (s <=? 299)).
Qed.

End gateway_runs.

Section classifier_runs.
Context `{Runtime}.
Import NlpService.

(** The call of [/analyze] with its handler, by what the server answers. *)
Lemma call_analyze_run w url req :
  call_analyze w url req =
    let post := HttpPost url 5%float "/analyze"
                  (PDict {[ "text" := PStr (text req) ]}) in
    let unavailable : M pyval :=
      (Raise (HTTPException 502 "Analyze service unavailable"),
       [post; Log EXCEPTION ".NET analyze failed: %s"]) in
    match http_server w url "/analyze"
            (PDict {[ "text" := PStr (text req) ]}) with
    | NoResponse => unavailable
    | Response s c =>
      if (200 <=? s) && (s <=? 299)
      then (of_option JSONDecodeError (response_json c), [post])
      else unavailable
    end.
Proof.
  unfold call_analyze, analyze_call, client_post, raise_for_status,
    resp_json, is_success.
  simpl. destruct (http_server _ _ _ _) as [|s c]; simpl; [done|].
  destruct ((200 <=? s) && (s <=? 299)); simpl; [|done].
  by destruct (response_json c).
Qed.

(** The endpoint is the call followed by the classification. *)
Lemma classify_endpoint_run w req :
  classify_endpoint w req =
    let call := call_analyze w
                  (getenv w "DOTNET_SERVICE_URL" "http://localhost:8080") req in
    (outcome call ≫= classify,
     Log INFO "Classify request received" :: trace call).
Proof.
  unfold classify_endpoint, log, emit, lift. cbv zeta.
  destruct (call_analyze _ _ _) as [[a|e] t]; simpl; by rewrite ?app_nil_r.
Qed.

(** The classification raises nothing but the errors of [get] and [int]. *)
Lemma classify_raises analysis e :
  classify analysis = Raise e ->
  e = AttributeError \/ e = TypeError \/ e = ValueError \/ e = OverflowError.
Proof.
  unfold classify.
  destruct (py_get analysis "length" (PInt 0)) as [got|e'] eqn:Hget; simpl.
  - destruct (py_int got) as [n|e'] eqn:Hint; simpl; [done|].
    intros [= <-]. apply py_int_raises in Hint. tauto.
  - intros [= <-]. destruct analysis; simpl in Hget; try discriminate;
      injection Hget as <-; tauto.
Qed.

Lemma respond_classify_raise analysis e :
  classify analysis = Raise e ->
  respond (Raise e) = (500, PStr "Internal Server Error").
Proof. by intros [->|[->|[->| ->]]]%classify_raises. Qed.


(** X22. What POST /classify does to the outside: it logs the request,
    makes one HTTP call, the POST of [{text: text}] to [/analyze] at
    [DOTNET_SERVICE_URL] (by default [http://localhost:8080]) with a
    timeout of 5 seconds, without a retry, and logs a failure exactly
    when it answers 502.  It makes no AMQP call and opens no span of its
    own. *)
Theorem classify_endpoint_trace w req :
  let run := classify_endpoint w req in
  trace run
    = [Log INFO "Classify request received";
       HttpPost (getenv w "DOTNET_SERVICE_URL" "http://localhost:8080")
         5%float "/analyze" (PDict {[ "text" := PStr (text req) ]})]
      ++ if decide (fst (respond (outcome run)) = 502)
         then [Log EXCEPTION ".NET analyze failed: %s"]
         else [].
Proof.
  intros run. unfold run. rewrite classify_endpoint_run. cbv zeta.
  rewrite call_analyze_run. cbv zeta.
  destruct (http_server _ _ _ _) as [|s c]; [done|].
  destruct ((200 <=? s) && (s <=? 299)); [|done].
  unfold outcome, trace. cbn [fst snd].
  destruct (response_json c) as [v|]; [|done].
  cbn [of_option mbind result_bind].
  destruct (classify v) as [r|e] eqn:Hv; [done|].
  by rewrite (respond_classify_raise _ _ Hv).
Qed.

End classifier_runs.

Section pipeline.
Context `{Runtime}.
Import ChatService.

(** X23. The gateway in front of the classification service.  Let the
    classification service of the gateway's world be this repository's
    POST /classify, run in a world [w_nlp] on the text of the chat message
    and served by the web framework (its status, and its return value
    as the JSON body).  Then, once the publish has returned, POST /chat
    answers 200 with the classifier's result under [classification] when
    the classifier returns, and 502 "NLP service unavailable" whenever the
    classifier fails, be it its own 502 for an unreachable analyzer or the
    500 of an exception. *)
Theorem gateway_behind_classifier w w_nlp ctx req content :
  let classified :=
    outcome (NlpService.classify_endpoint w_nlp
               {| NlpService.text := message req |}) in
  outcome (publish_to_rabbitmq w (start_span "publish_to_rabbitmq" PRODUCER ctx)
             (getenv w "RABBITMQ_QUEUE" "chat-jobs")
             (PDict {[ "message" := PStr (message req) ]})) = Ok tt ->
  http_server w (getenv w "NLP_SERVICE_URL" "http://localhost:8001")
    "/classify" (PDict {[ "text" := PStr (message req) ]})
    = Response (fst (respond classified)) content ->
  (forall v, classified = Ok v -> response_json content = Some v) ->
  respond (outcome (chat_endpoint w ctx req))
    = match classified with
      | Ok v => (200, PDict {[ "ok" := PBool true; "classification" := v ]})
      | Raise _ => (502, PDict {[ "detail" := PStr "NLP service unavailable" ]})
      end.
Proof.
  intros classified Hpub Hlink Hbody.
  rewrite chat_endpoint_run. cbv zeta.
  rewrite publish_step_run. cbv zeta. unfold outcome at 1. simpl fst.
  rewrite Hpub, call_nlp_service_run. cbv zeta. rewrite Hlink.
  assert (Hstatus : match classified with
                    | Ok _ => fst (respond classified) = 200
                    | Raise _ => fst (respond classified) = 502 \/
                                 fst (respond classified) = 500
                    end).
  { unfold classified. rewrite classify_endpoint_run. cbv zeta.
    rewrite call_analyze_run. cbv zeta.
    destruct (http_server w_nlp _ _ _) as [|s c]; [by left|].
    destruct ((200 <=? s) && (s <=? 299)); [|by left].
    unfold outcome. cbn [fst].
    destruct (response_json c) as [v|]; [|by right].
    cbn [of_option mbind result_bind].
    destruct (NlpService.classify v) as [r|e] eqn:Hv; [done|].
    right. by rewrite (respond_classify_raise _ _ Hv). }
  destruct classified as [v|e].
  - rewrite Hstatus. simpl. by rewrite (Hbody v eq_refl).
  - by destruct Hstatus as [-> | ->].
Qed.

End pipeline.

Section callback_ack_failure.
Context `{Runtime}.
Import Worker.

(** X24. A failed acknowledgement is followed by a rejection: when the
    message was analyzed and [basic_ack] raises, the error is caught by
    the handler of the same [try], which calls [basic_nack] without
    requeue on the delivery it has just tried to acknowledge.  The
    callback then returns, unless the [basic_nack] raises as well. *)
Theorem on_message_nacks_after_failed_ack w queue_name dotnet_url method
    properties body carrier message analysis e :
  _normalize_headers (headers properties) = Ok carrier ->
  message_of body = Ok message ->
  outcome (analyze w dotnet_url message) = Ok analysis ->
  amqp_fault w (basic_ack (delivery_tag method)) = Some e ->
  let run := on_message w queue_name dotnet_url method properties body in
  List.filter (fun ev => is_ack ev || is_nack ev) (trace run)
    = [Amqp (basic_ack (delivery_tag method));
       Amqp (basic_nack (delivery_tag method) false)] /\
  outcome run
    = match amqp_fault w (basic_nack (delivery_tag method) false) with
      | Some e' => Raise (AMQPError e')
      | None => Ok tt
      end.
Proof.
  intros Hnorm Hmsg Hcall Hack run. unfold run.
  rewrite on_message_run, Hnorm. cbv zeta.
  rewrite process_run, Hmsg, Hcall, Hack. unfold rejected.
  unfold outcome, trace. simpl. done.
Qed.

End callback_ack_failure.

Section bootstrap.
Import Bootstrap.

(** X25. Configuring the OTLP exporter at start-up cannot stop a service:
    as long as what the exporter and the span processor raise are
    [Exception]s, [_configure_otlp_exporter] returns and logs one line.
    Either nothing failed: the line is the INFO line, and the provider has
    got a span processor for the endpoint of
    [OTEL_EXPORTER_OTLP_TRACES_ENDPOINT] (by default
    [http://apm-server:4318/v1/traces]) if it has the method
    [add_span_processor], and is unchanged otherwise; or something failed:
    the line is the EXCEPTION line and the provider is unchanged. *)
Theorem configure_otlp_exporter_contains_failures w lib provider :
  let endpoint := getenv w "OTEL_EXPORTER_OTLP_TRACES_ENDPOINT"
                    "http://apm-server:4318/v1/traces" in
  let run := _configure_otlp_exporter w lib provider in
  (forall e, exporter_fault lib endpoint = Some e -> is_Exception e = true) ->
  (forall e, processor_fault lib endpoint = Some e -> is_Exception e = true) ->
  (run = (Ok (if has_add_span_processor provider
              then {| has_add_span_processor := true;
                      span_processors := span_processors provider ++ [endpoint] |}
              else provider),
          [Log INFO "OTLP exporter configured endpoint=%s"]) /\
   exporter_fault lib endpoint = None /\
   (has_add_span_processor provider = true ->
    processor_fault lib endpoint = None)) \/
  (run = (Ok provider, [Log EXCEPTION "Failed to configure OTLP exporter: %s"]) /\
   (exporter_fault lib endpoint <> None \/
    has_add_span_processor provider = true /\
    processor_fault lib endpoint <> None)).
Proof.
  intros endpoint run Hexporter Hprocessor.
  unfold run, _configure_otlp_exporter, add_span_processor. fold endpoint.
  destruct (exporter_fault lib endpoint) as [e|] eqn:He.
  { right. unfold try_except. simpl. rewrite (Hexporter e eq_refl). simpl.
    split; [done|]. by left. }
  destruct (has_add_span_processor provider) eqn:Hhas; [|by left].
  destruct (processor_fault lib endpoint) as [e|] eqn:Hp.
  - right. unfold try_except. simpl. rewrite (Hprocessor e eq_refl). simpl.
    split; [done|]. by right.
  - by left.
Qed.

End bootstrap.

(** ** The properties above on concrete runs *)

Section more_scenarios.
Import Reference.

(** A table that holds its one key as bytes normalizes to the dictionary
    it was made from. *)
Lemma normalize_headers_round_trip_witness :
  Worker._normalize_headers (H := runtime None)
    (Some [(HBytes (str_encode "k"), HStr "v")]) = Ok {[ "k" := "v" ]}.
Proof.
  apply (normalize_headers_round_trip (H := runtime None) {[ "k" := "v" ]}
           [(HBytes (str_encode "k"), HStr "v")]).
  rewrite map_to_list_singleton. repeat constructor.
Defined.

(** The same key as a [str] and then as bytes: the second value stays. *)
Lemma normalize_headers_last_wins_witness :
  exists d' key val,
    Worker._normalize_headers (H := runtime None)
      (Some [(HStr "k", HStr "a")]) = Ok d' /\
    Worker.normalize_key (H := runtime None) (HBytes [x6b]) = Ok key /\
    Worker.normalize_value (H := runtime None) (HStr "b") = Ok val /\
    ({[ "k" := "b" ]} : gmap string string) = <[key := val]> d' /\
    ({[ "k" := "b" ]} : gmap string string) !! key = Some val.
Proof.
  apply (normalize_headers_last_wins (H := runtime None)
           [(HStr "k", HStr "a")] (HBytes [x6b]) (HStr "b") {[ "k" := "b" ]}).
  vm_compute. reflexivity.
Defined.

Lemma on_message_settles_once_witness :
  settlements
    (trace (Worker.on_message (H := runtime (Some (PDict ∅)))
              (world (Response 200 [])) "chat-jobs" "http://localhost:8080"
              {| Worker.delivery_tag := 7 |}
              {| content_type := None; delivery_mode := None; headers := None |}
              (str_encode "{}")))
    = [7].
Proof.
  apply (on_message_settles_once (H := runtime (Some (PDict ∅)))
           (world (Response 200 [])) "chat-jobs" "http://localhost:8080"
           {| Worker.delivery_tag := 7 |}
           {| content_type := None; delivery_mode := None; headers := None |}
           (str_encode "{}") ∅); reflexivity.
Defined.

(** The analyzer does not answer: the one AMQP call is the nack without
    requeue. *)
Lemma on_message_never_requeues_witness :
  basic_nack 7 false = basic_ack 7 \/ basic_nack 7 false = basic_nack 7 false.
Proof.
  apply (on_message_never_requeues (H := runtime (Some (PDict ∅)))
           (world NoResponse) "chat-jobs" "http://localhost:8080"
           {| Worker.delivery_tag := 7 |}
           {| content_type := None; delivery_mode := None; headers := None |}
           (str_encode "{}") (basic_nack 7 false)).
  vm_compute. do 7 apply list_elem_of_further. apply list_elem_of_here.
Defined.

Lemma on_message_acks_iff_witness :
  Amqp (basic_ack 7)
    ∈ trace (Worker.on_message (H := runtime (Some (PDict ∅)))
               (world (Response 200 [])) "chat-jobs" "http://localhost:8080"
               {| Worker.delivery_tag := 7 |}
               {| content_type := None; delivery_mode := None; headers := None |}
               (str_encode "{}"))
  <-> exists message analysis,
        Worker.message_of (H := runtime (Some (PDict ∅))) (str_encode "{}")
          = Ok message /\
        outcome (Worker.analyze (H := runtime (Some (PDict ∅)))
                   (world (Response 200 [])) "http://localhost:8080" message)
          = Ok analysis.
Proof.
  apply (on_message_acks_iff (H := runtime (Some (PDict ∅)))
           (world (Response 200 [])) "chat-jobs" "http://localhost:8080"
           {| Worker.delivery_tag := 7 |}
           {| content_type := None; delivery_mode := None; headers := None |}
           (str_encode "{}") ∅).
  reflexivity.
Defined.

(** A body that is no UTF-8: rejected, and the analyzer is not called. *)
Lemma on_message_rejects_without_analysis_witness :
  let t := trace (Worker.on_message (H := runtime (Some (PDict ∅)))
                    (world (Response 200 [])) "chat-jobs"
                    "http://localhost:8080" {| Worker.delivery_tag := 7 |}
                    {| content_type := None; delivery_mode := None;
                       headers := None |}
                    [xff]) in
  http_calls t = [] /\
  Amqp (basic_nack 7 false) ∈ t /\
  Amqp (basic_ack 7) ∉ t.
Proof.
  apply (on_message_rejects_without_analysis (H := runtime (Some (PDict ∅)))
           (world (Response 200 [])) "chat-jobs" "http://localhost:8080"
           {| Worker.delivery_tag := 7 |}
           {| content_type := None; delivery_mode := None; headers := None |}
           [xff] ∅ UnicodeDecodeError); reflexivity.
Defined.

Lemma on_message_message_field_witness :
  http_calls
    (trace (Worker.on_message
              (H := runtime (Some (PDict {[ "message" := PStr "hi" ]})))
              (world (Response 200 [])) "chat-jobs" "http://localhost:8080"
              {| Worker.delivery_tag := 7 |}
              {| content_type := None; delivery_mode := None; headers := None |}
              (str_encode "{}")))
    = [HttpPost "http://localhost:8080" 5%float "/analyze"
         (PDict {[ "text" := PStr "hi" ]})].
Proof.
  pose proof (on_message_message_field
                (H := runtime (Some (PDict {[ "message" := PStr "hi" ]})))
                (world (Response 200 [])) "chat-jobs" "http://localhost:8080"
                {| Worker.delivery_tag := 7 |}
                {| content_type := None; delivery_mode := None;
                   headers := None |}
                (str_encode "{}") ∅ "{}" {[ "message" := PStr "hi" ]}
                eq_refl eq_refl eq_refl) as Hfield.
  cbv zeta in Hfield.
  replace (({[ "message" := PStr "hi" ]} : gmap string pyval) !! "message")
    with (Some (PStr "hi")) in Hfield by (vm_compute; reflexivity).
  exact Hfield.
Defined.

Lemma on_message_returns_witness :
  outcome (Worker.on_message (H := runtime None)
             (world NoResponse) "chat-jobs" "http://localhost:8080"
             {| Worker.delivery_tag := 7 |}
             {| content_type := None; delivery_mode := None; headers := None |}
             (str_encode "{}"))
    = Ok tt.
Proof.
  apply (on_message_returns (H := runtime None)
           (world NoResponse) "chat-jobs" "http://localhost:8080"
           {| Worker.delivery_tag := 7 |}
           {| content_type := None; delivery_mode := None; headers := None |}
           (str_encode "{}") ∅); reflexivity.
Defined.

(** Two deliveries, the first of a body that is no UTF-8. *)
Lemma main_settles_in_order_witness :
  let run := Worker.main (H := runtime (Some (PDict ∅)))
               (world (Response 200 []))
               [ ({| Worker.delivery_tag := 1 |},
                  {| content_type := None; delivery_mode := None;
                     headers := None |},
                  [xff]);
                 ({| Worker.delivery_tag := 2 |},
                  {| content_type := None; delivery_mode := None;
                     headers := Some [(HBytes [x6b], HBytes [xff])] |},
                  str_encode "{}") ] in
  outcome run = Ok tt /\
  settlements (trace run) = [1; 2] /\
  exists t, trace run
    = t ++ [Log INFO "Worker interrupted, closing connection...";
            Amqp channel_close; Amqp connection_close].
Proof.
  apply (main_settles_in_order (H := runtime (Some (PDict ∅)))
           (world (Response 200 []))
           [ ({| Worker.delivery_tag := 1 |},
              {| content_type := None; delivery_mode := None;
                 headers := None |},
              [xff]);
             ({| Worker.delivery_tag := 2 |},
              {| content_type := None; delivery_mode := None;
                 headers := Some [(HBytes [x6b], HBytes [xff])] |},
              str_encode "{}") ]).
  - reflexivity.
  - repeat constructor; eexists; reflexivity.
Defined.

(** Three deliveries, the second with a key that is no UTF-8: the first
    is settled, the third is never seen. *)
Lemma main_stops_at_first_undecodable_key_witness :
  let run := Worker.main (H := runtime (Some (PDict ∅)))
               (world (Response 200 []))
               [ ({| Worker.delivery_tag := 1 |},
                  {| content_type := None; delivery_mode := None;
                     headers := None |},
                  str_encode "{}");
                 ({| Worker.delivery_tag := 2 |},
                  {| content_type := None; delivery_mode := None;
                     headers := Some [(HBytes [xff], HStr "x")] |},
                  str_encode "{}");
                 ({| Worker.delivery_tag := 3 |},
                  {| content_type := None; delivery_mode := None;
                     headers := None |},
                  str_encode "{}") ] in
  outcome run = Raise UnicodeDecodeError /\
  settlements (trace run) = [1] /\
  exists t, trace run = t ++ [Amqp channel_close; Amqp connection_close].
Proof.
  apply (main_stops_at_first_undecodable_key (H := runtime (Some (PDict ∅)))
           (world (Response 200 []))
           [ ({| Worker.delivery_tag := 1 |},
              {| content_type := None; delivery_mode := None;
                 headers := None |},
              str_encode "{}") ]
           {| Worker.delivery_tag := 2 |}
           {| content_type := None; delivery_mode := None;
              headers := Some [(HBytes [xff], HStr "x")] |}
           (str_encode "{}")
           [ ({| Worker.delivery_tag := 3 |},
              {| content_type := None; delivery_mode := None;
                 headers := None |},
              str_encode "{}") ]
           UnicodeDecodeError).
  - reflexivity.
  - repeat constructor; eexists; reflexivity.
  - reflexivity.
Defined.

(** A broker that refuses to declare the queue: the worker stops after
    its third call. *)
Lemma main_setup_failure_witness :
  let w := world_failing
             (fun c => match c with queue_declare _ _ => true | _ => false end)
             NoResponse in
  Worker.main (H := runtime None) w []
    = (Raise (AMQPError AMQPChannelError),
       [Log INFO "Worker connecting to RabbitMQ host=%s queue=%s";
        Amqp (BlockingConnection "localhost"); Amqp channel;
        Amqp (queue_declare "chat-jobs" true)]) /\
  (Amqp channel_close ∉ trace (Worker.main (H := runtime None) w [])) /\
  (Amqp connection_close ∉ trace (Worker.main (H := runtime None) w [])).
Proof.
  apply (main_setup_failure (H := runtime None)
           (world_failing
              (fun c => match c with queue_declare _ _ => true | _ => false end)
              NoResponse)
           [] 2 (queue_declare "chat-jobs" true) AMQPChannelError).
  - reflexivity.
  - reflexivity.
  - intros c' Hc'. simpl in Hc'.
    rewrite !elem_of_cons, elem_of_nil in Hc'.
    destruct Hc' as [->|[->|[]]]; reflexivity.
Defined.

Lemma main_consumes_after_setup_witness :
  Forall (fun c => amqp_fault (world NoResponse) c = None)
    (Worker.setup_calls (world NoResponse)) /\
  exists rest,
    trace (Worker.main (H := runtime None) (world NoResponse) [])
      = Log INFO "Worker connecting to RabbitMQ host=%s queue=%s"
        :: (Amqp <$> Worker.setup_calls (world NoResponse))
        ++ Log INFO "Worker started consuming" :: rest.
Proof.
  apply (main_consumes_after_setup (H := runtime None) (world NoResponse) []).
  vm_compute. do 6 apply list_elem_of_further. apply list_elem_of_here.
Defined.

(** A broker that refuses the message: the publish stops there, closes
    the connection and raises the error. *)
Lemma publish_stops_at_first_failure_witness :
  let w := world_failing
             (fun c => match c with basic_publish _ _ _ _ => true | _ => false end)
             NoResponse in
  let run := ChatService.publish_to_rabbitmq (H := runtime None) w
               sample_context "chat-jobs" (PDict ∅) in
  trace run
    = Amqp <$> (take 4 (ChatService.publish_calls (H := runtime None) w
                          sample_context "chat-jobs" (PDict ∅))
                ++ [connection_close]) /\
  outcome run = Raise (AMQPError AMQPChannelError).
Proof.
  intros w run.
  destruct (publish_stops_at_first_failure (H := runtime None) w
              sample_context "chat-jobs" (PDict ∅) 3
              (basic_publish "" "chat-jobs" (str_encode "{}")
                 {| content_type := Some "application/json";
                    delivery_mode := Some 2;
                    headers := Some (ChatService.dict_items
                                       (ref_inject sample_context ∅)) |})
              AMQPChannelError) as (Htrace & Houtcome & _).
  - reflexivity.
  - reflexivity.
  - intros c' Hc'. simpl in Hc'.
    rewrite !elem_of_cons, elem_of_nil in Hc'.
    destruct Hc' as [->|[->|[->|[]]]]; reflexivity.
  - split; [exact Htrace|]. apply Houtcome. right. right. reflexivity.
Defined.

(** The chat request [hello] through both services: the analyzer says
    length 5, the classifier says short, the gateway passes it on. *)
Lemma gateway_behind_classifier_witness :
  respond (outcome (ChatService.chat_endpoint (H := pipeline_runtime)
                      pipeline_world sample_context hello))
    = (200, PDict {[ "ok" := PBool true; "classification" := short_hello ]}).
Proof.
  apply (gateway_behind_classifier (H := pipeline_runtime)
           pipeline_world pipeline_world sample_context hello [x7b]).
  - reflexivity.
  - vm_compute. reflexivity.
  - intros v Hv. vm_compute in Hv. injection Hv as <-. reflexivity.
Defined.

(** The acknowledgement fails: the delivery is rejected after it. *)
Lemma on_message_nacks_after_failed_ack_witness :
  let w := world_failing (fun c => is_ack (Amqp c)) (Response 200 []) in
  let run := Worker.on_message (H := runtime (Some (PDict ∅))) w "chat-jobs"
               "http://localhost:8080" {| Worker.delivery_tag := 7 |}
               {| content_type := None; delivery_mode := None; headers := None |}
               (str_encode "{}") in
  List.filter (fun ev => is_ack ev || is_nack ev) (trace run)
    = [Amqp (basic_ack 7); Amqp (basic_nack 7 false)] /\
  outcome run = Ok tt.
Proof.
  apply (on_message_nacks_after_failed_ack (H := runtime (Some (PDict ∅)))
           (world_failing (fun c => is_ack (Amqp c)) (Response 200 []))
           "chat-jobs" "http://localhost:8080" {| Worker.delivery_tag := 7 |}
           {| content_type := None; delivery_mode := None; headers := None |}
           (str_encode "{}") ∅ (PStr "") (PDict ∅) AMQPChannelError);
    reflexivity.
Defined.

(** An exporter that cannot be made: one EXCEPTION line, and the provider
    as it was. *)
Lemma configure_otlp_exporter_contains_failures_witness :
  Bootstrap._configure_otlp_exporter (world NoResponse)
    {| Bootstrap.exporter_fault := fun _ => Some ValueError;
       Bootstrap.processor_fault := fun _ => None |}
    {| Bootstrap.has_add_span_processor := true;
       Bootstrap.span_processors := [] |}
  = (Ok {| Bootstrap.has_add_span_processor := true;
           Bootstrap.span_processors := [] |},
     [Log EXCEPTION "Failed to configure OTLP exporter: %s"]).
Proof.
  destruct (configure_otlp_exporter_contains_failures (world NoResponse)
              {| Bootstrap.exporter_fault := fun _ => Some ValueError;
                 Bootstrap.processor_fault := fun _ => None |}
              {| Bootstrap.has_add_span_processor := true;
                 Bootstrap.span_processors := [] |})
    as [(_ & Hnone & _)|(Hrun & _)].
  - intros e [= <-]. reflexivity.
  - intros e [=].
  - discriminate Hnone.
  - exact Hrun.
Defined.

End more_scenarios.
